(** * TTRPG ledger backend: reputation endpoints and gear / reputation schemas

    A shallow embedding of
      - [backend/app/routers/reputation.py]  (ownership guard, two read endpoints),
      - [backend/app/models/reputation.py]   (pydantic reputation schemas),
      - [backend/app/models/gear.py]         (pydantic gear schemas),
    together with a model of the database client the router receives as
    its [db] argument.

    Python code that talks to the database is written in a small state and
    exception monad [py]; pydantic model construction is written in the
    exception monad [outcome]. *)

From Stdlib Require Import ZArith String Ascii List Lia DecimalString DecimalZ.
From stdpp Require Import base option list sorting pretty.
Import ListNotations.

Set Warnings "-register-all".
Local Open Scope string_scope.
Local Open Scope Z_scope.
Local Open Scope list_scope.

(** ** Python values

    What [json] decoding of a PostgREST answer yields, and what is passed as
    keyword arguments to a pydantic model.  A [dict] keeps insertion order. *)

Inductive value :=
| VNone
| VBool (b : bool)
| VInt (z : Z)
| VStr (s : string)
| VList (l : list value)
| VDict (d : list (string * value)).

Definition dict := list (string * value).

Fixpoint dict_get (d : dict) (k : string) : option value :=
  match d with
  | [] => None
  | (k', v) :: d' => if String.eqb k' k then Some v else dict_get d' k
  end.

Definition dict_del (d : dict) (k : string) : dict :=
  List.filter (fun kv => negb (String.eqb (fst kv) k)) d.

Definition is_None (v : value) : bool :=
  match v with VNone => true | _ => false end.

(** ** Exceptions and results *)

Inductive exn :=
| HTTPException (status_code : Z) (detail : string)
| APIError (code details : string)
| ValidationError (model : string)
| AttributeError
| TypeError.

Inductive outcome (A : Type) :=
| Return (a : A)
| Raise (e : exn).
Arguments Return {A} a.
Arguments Raise {A} e.

Global Instance outcome_ret : MRet outcome := fun _ a => Return a.
Global Instance outcome_bind : MBind outcome := fun _ _ f m =>
  match m with
  | Return a => f a
  | Raise e => Raise e
  end.

(** ** The database client

    [db.table(t).select(c).eq(k, v).order(k, desc=...).single()] builds a
    request; [.execute()] sends it.  The verbs are those of the PostgREST
    request builders ([select] is GET, [insert] POST, [update] PATCH,
    [delete] DELETE). *)

Inductive http_method := GET | POST | PATCH | DELETE.

Inductive filter_param :=
| FilterEq (column literal : string).

Record request := {
  r_table : string;
  r_method : http_method;
  r_columns : string;
  r_filters : list filter_param;
  r_order : list (string * bool);
  r_single : bool
}.

Definition table (name : string) : string := name.

Definition select (columns : string) (tbl : string) : request :=
  {| r_table := tbl; r_method := GET; r_columns := columns;
     r_filters := []; r_order := []; r_single := false |}.

Definition eq (column literal : string) (q : request) : request :=
  {| r_table := r_table q; r_method := r_method q; r_columns := r_columns q;
     r_filters := r_filters q ++ [FilterEq column literal];
     r_order := r_order q; r_single := r_single q |}.

Definition order (column : string) (desc : bool) (q : request) : request :=
  {| r_table := r_table q; r_method := r_method q; r_columns := r_columns q;
     r_filters := r_filters q;
     r_order := r_order q ++ [(column, desc)]; r_single := r_single q |}.

Definition single (q : request) : request :=
  {| r_table := r_table q; r_method := r_method q; r_columns := r_columns q;
     r_filters := r_filters q; r_order := r_order q; r_single := true |}.

Notation "x |> f" := (f x) (at level 45, left associativity, only parsing).

Record APIResponse := { data : value }.

(** A client answers a request against the backing store [W] it is
    connected to; the answer is a response or an exception, and the store
    may change. *)
Definition Client (W : Type) := request -> W -> W * outcome APIResponse.

(** The state of one request handling: the backing store and the requests
    sent to it so far, oldest first. *)
Record session (W : Type) := { backend : W; sent : list request }.
Arguments backend {W} s.
Arguments sent {W} s.

Definition py (W A : Type) := session W -> session W * outcome A.

Global Instance py_ret {W} : MRet (py W) := fun _ a s => (s, Return a).
Global Instance py_bind {W} : MBind (py W) := fun _ _ f m s =>
  match m s with
  | (s', Return a) => f a s'
  | (s', Raise e) => (s', Raise e)
  end.

Definition raise {W A} (e : exn) : py W A := fun s => (s, Raise e).

Definition lift {W A} (o : outcome A) : py W A := fun s => (s, o).

Definition execute {W} (db : Client W) (q : request) : py W APIResponse :=
  fun s =>
    let (w', r) := db q (backend s) in
    ({| backend := w'; sent := sent s ++ [q] |}, r).

(** ** Scalars

    UUIDs, their text form, and pydantic's validators for the scalar field
    types belong to the Python library and to pydantic; the development is
    parametric in them.  A [datetime] is an instant, counted in
    microseconds. *)

Definition datetime := Z.

Class Scalars := {
  UUID : Type;
  UUID_eq_dec :: EqDecision UUID;
  str : UUID -> string;
  isoformat : datetime -> string;
  validate_uuid : value -> option UUID;
  validate_datetime : value -> option datetime;
  validate_int : value -> option Z;
  validate_str : value -> option string;
  validate_bool : value -> option bool
}.

(** What the validators do on the text forms the database sends. *)
Class ScalarLaws `{Scalars} : Prop := {
  validate_uuid_str u : validate_uuid (VStr (str u)) = Some u;
  validate_datetime_isoformat t : validate_datetime (VStr (isoformat t)) = Some t;
  validate_int_VInt z : validate_int (VInt z) = Some z;
  validate_str_VStr s : validate_str (VStr s) = Some s
}.

(** ** pydantic fields

    Calling a model class with keyword arguments validates each declared
    field against them and raises one [ValidationError] for the model when a
    required field is missing or a value is refused; keyword arguments that
    name no field are ignored. *)

Definition required {A} (model : string) (validate : value -> option A)
    (kwargs : dict) (field : string) : outcome A :=
  match dict_get kwargs field with
  | Some v =>
      match validate v with
      | Some a => Return a
      | None => Raise (ValidationError model)
      end
  | None => Raise (ValidationError model)
  end.

Definition with_default {A} (model : string) (validate : value -> option A)
    (default : A) (kwargs : dict) (field : string) : outcome A :=
  match dict_get kwargs field with
  | Some v =>
      match validate v with
      | Some a => Return a
      | None => Raise (ValidationError model)
      end
  | None => Return default
  end.

(** The annotation [T | None]. *)
Definition or_None {A} (validate : value -> option A) (v : value) : option (option A) :=
  match v with
  | VNone => Some None
  | _ => Some <$> validate v
  end.

(** ** [app/models/reputation.py] *)

Module ReputationChangeCreate.
Section Model.
Context `{Scalars}.
Record t := {
  corporation_id : UUID;
  change_value : Z;
  notes : option string
}.
Definition fields (model : string) (kwargs : dict) : outcome t :=
  c ← required model validate_uuid kwargs "corporation_id";
  v ← required model validate_int kwargs "change_value";
  n ← with_default model (or_None validate_str) None kwargs "notes";
  mret {| corporation_id := c; change_value := v; notes := n |}.
Definition init : dict -> outcome t := fields "ReputationChangeCreate".
End Model.
End ReputationChangeCreate.

Module ReputationChange.
Section Model.
Context `{Scalars}.
Record t := {
  base : ReputationChangeCreate.t;
  id : UUID;
  log_entry_id : UUID;
  pilot_id : UUID;
  created_at : datetime
}.
Definition fields (model : string) (kwargs : dict) : outcome t :=
  b ← ReputationChangeCreate.fields model kwargs;
  i ← required model validate_uuid kwargs "id";
  l ← required model validate_uuid kwargs "log_entry_id";
  p ← required model validate_uuid kwargs "pilot_id";
  c ← required model validate_datetime kwargs "created_at";
  mret {| base := b; id := i; log_entry_id := l; pilot_id := p; created_at := c |}.
Definition init : dict -> outcome t := fields "ReputationChange".
Definition corporation_id (x : t) := ReputationChangeCreate.corporation_id (base x).
Definition change_value (x : t) := ReputationChangeCreate.change_value (base x).
Definition notes (x : t) := ReputationChangeCreate.notes (base x).
End Model.
End ReputationChange.

Module ReputationChangeWithCorp.
Section Model.
Context `{Scalars}.
Record t := {
  base : ReputationChange.t;
  corporation_name : string
}.
Definition fields (model : string) (kwargs : dict) : outcome t :=
  b ← ReputationChange.fields model kwargs;
  n ← required model validate_str kwargs "corporation_name";
  mret {| base := b; corporation_name := n |}.
Definition init : dict -> outcome t := fields "ReputationChangeWithCorp".
Definition id (x : t) := ReputationChange.id (base x).
Definition log_entry_id (x : t) := ReputationChange.log_entry_id (base x).
Definition pilot_id (x : t) := ReputationChange.pilot_id (base x).
Definition created_at (x : t) := ReputationChange.created_at (base x).
Definition corporation_id (x : t) := ReputationChange.corporation_id (base x).
Definition change_value (x : t) := ReputationChange.change_value (base x).
Definition notes (x : t) := ReputationChange.notes (base x).
End Model.
End ReputationChangeWithCorp.

Module PilotReputation.
Section Model.
Context `{Scalars}.
Record t := {
  pilot_id : UUID;
  corporation_id : UUID;
  corporation_name : string;
  reputation_value : Z
}.
Definition init (kwargs : dict) : outcome t :=
  p ← required "PilotReputation" validate_uuid kwargs "pilot_id";
  c ← required "PilotReputation" validate_uuid kwargs "corporation_id";
  n ← required "PilotReputation" validate_str kwargs "corporation_name";
  v ← required "PilotReputation" validate_int kwargs "reputation_value";
  mret {| pilot_id := p; corporation_id := c; corporation_name := n;
          reputation_value := v |}.
End Model.
End PilotReputation.

(** ** [app/models/gear.py] *)

Module GearBase.
Section Model.
Context `{Scalars}.
Record t := {
  name : string;
  description : option string;
  notes : option string
}.
Definition fields (model : string) (kwargs : dict) : outcome t :=
  n ← required model validate_str kwargs "name";
  d ← with_default model (or_None validate_str) None kwargs "description";
  o ← with_default model (or_None validate_str) None kwargs "notes";
  mret {| name := n; description := d; notes := o |}.
Definition init : dict -> outcome t := fields "GearBase".
End Model.
End GearBase.

Module GearCreate.
Section Model.
Context `{Scalars}.
Definition t := GearBase.t.
Definition init : dict -> outcome t := GearBase.fields "GearCreate".
End Model.
End GearCreate.

Module GearUpdate.
Section Model.
Context `{Scalars}.
Record t := {
  name : option string;
  description : option string;
  notes : option string
}.
Definition init (kwargs : dict) : outcome t :=
  n ← with_default "GearUpdate" (or_None validate_str) None kwargs "name";
  d ← with_default "GearUpdate" (or_None validate_str) None kwargs "description";
  o ← with_default "GearUpdate" (or_None validate_str) None kwargs "notes";
  mret {| name := n; description := d; notes := o |}.
End Model.
End GearUpdate.

Module GearLose.
Record t := { }.
Definition init (kwargs : dict) : outcome t := Return Build_t.
End GearLose.

Module ExoticGear.
Section Model.
Context `{Scalars}.
Record t := {
  base : GearBase.t;
  id : UUID;
  pilot_id : UUID;
  acquired_date : datetime;
  acquired_log_id : option UUID;
  lost_log_id : option UUID;
  created_at : datetime;
  updated_at : datetime
}.
Definition fields (model : string) (kwargs : dict) : outcome t :=
  b ← GearBase.fields model kwargs;
  i ← required model validate_uuid kwargs "id";
  p ← required model validate_uuid kwargs "pilot_id";
  a ← required model validate_datetime kwargs "acquired_date";
  al ← with_default model (or_None validate_uuid) None kwargs "acquired_log_id";
  ll ← with_default model (or_None validate_uuid) None kwargs "lost_log_id";
  c ← required model validate_datetime kwargs "created_at";
  u ← required model validate_datetime kwargs "updated_at";
  mret {| base := b; id := i; pilot_id := p; acquired_date := a;
          acquired_log_id := al; lost_log_id := ll;
          created_at := c; updated_at := u |}.
Definition init : dict -> outcome t := fields "ExoticGear".
End Model.
End ExoticGear.

Module ExoticGearWithLogInfo.
Section Model.
Context `{Scalars}.
Record t := {
  base : ExoticGear.t;
  is_lost : bool
}.
Definition fields (model : string) (kwargs : dict) : outcome t :=
  b ← ExoticGear.fields model kwargs;
  l ← with_default model validate_bool false kwargs "is_lost";
  mret {| base := b; is_lost := l |}.
Definition init : dict -> outcome t := fields "ExoticGearWithLogInfo".
Definition lost_log_id (x : t) := ExoticGear.lost_log_id (base x).
End Model.
End ExoticGearWithLogInfo.

(** ** [app/models/user.py] *)

Module User.
Section Model.
Context `{Scalars}.
(** Modelled from the spec: [app/models/user.py] is not among the
    sources.  The spec calls it an authenticated user record, already
    resolved by the authentication collaborator; the router reads only
    its [id]. *)
Record t := { id : UUID }.
End Model.
End User.

(** ** Python built-ins used by the router *)

(** [for r in v]: the items a [for] loop visits. *)
Definition iter (v : value) : outcome (list value) :=
  match v with
  | VList l => Return l
  | VDict d => Return (List.map (fun kv => VStr (fst kv)) d)
  | VStr s => Return (List.map (fun c => VStr (String c "")) (list_ascii_of_string s))
  | _ => Raise TypeError
  end.

(** Unpacking [r] into keyword arguments: [r] has to be a mapping. *)
Definition unpack (r : value) : outcome dict :=
  match r with
  | VDict d => Return d
  | _ => Raise TypeError
  end.

(** [r.pop(k, dflt)]: the popped value and [r] afterwards. *)
Definition pop (r : value) (k : string) (dflt : value) : outcome (value * value) :=
  match r with
  | VDict d => Return (default dflt (dict_get d k), VDict (dict_del d k))
  | VList _ => Raise TypeError
  | _ => Raise AttributeError
  end.

(** [v.get(k, dflt)]. *)
Definition get (v : value) (k : string) (dflt : value) : outcome value :=
  match v with
  | VDict d => Return (default dflt (dict_get d k))
  | _ => Raise AttributeError
  end.

(** Unpacking [r] next to an explicit keyword [k=v]: a keyword given twice
    is a [TypeError]. *)
Definition unpack_with (r : value) (k : string) (v : value) : outcome dict :=
  d ← unpack r;
  match dict_get d k with
  | Some _ => Raise TypeError
  | None => Return (d ++ [(k, v)])
  end.

(** [for x in xs: acc.append(body(x))], starting from [acc]. *)
Fixpoint for_append {A B} (xs : list A) (body : A -> outcome B) (acc : list B)
    : outcome (list B) :=
  match xs with
  | [] => Return acc
  | x :: xs' => y ← body x; for_append xs' body (acc ++ [y])
  end.

(** ** [app/routers/reputation.py] *)

Section Router.
Context `{Scalars} {W : Type}.

Definition verify_pilot_ownership (pilot_id : UUID) (current_user : User.t)
    (db : Client W) : py W bool :=
  result ← execute db
    (table "pilots"
       |> select "id"
       |> eq "id" (str pilot_id)
       |> eq "user_id" (str (User.id current_user))
       |> single);
  mret (negb (is_None (data result))).

Definition list_pilot_reputation (pilot_id : UUID) (current_user : User.t)
    (db : Client W) : py W (list PilotReputation.t) :=
  owned ← verify_pilot_ownership pilot_id current_user db;
  if negb owned then raise (HTTPException 404 "Pilot not found") else
  result ← execute db
    (table "pilot_reputation"
       |> select "*"
       |> eq "pilot_id" (str pilot_id));
  lift (rows ← iter (data result);
        mapM (fun r => kwargs ← unpack r; PilotReputation.init kwargs) rows).

(** The body of the loop over the history rows. *)
Definition history_entry (r : value) : outcome ReputationChangeWithCorp.t :=
  '(corporations, r) ← pop r "corporations" (VDict []);
  corp_name ← get corporations "name" (VStr "Unknown");
  kwargs ← unpack_with r "corporation_name" corp_name;
  ReputationChangeWithCorp.init kwargs.

Definition list_pilot_reputation_history (pilot_id : UUID) (current_user : User.t)
    (db : Client W) : py W (list ReputationChangeWithCorp.t) :=
  owned ← verify_pilot_ownership pilot_id current_user db;
  if negb owned then raise (HTTPException 404 "Pilot not found") else
  result ← execute db
    (table "reputation_changes"
       |> select "*, corporations(name)"
       |> eq "pilot_id" (str pilot_id)
       |> order "created_at" true);
  lift (rows ← iter (data result);
        for_append rows history_entry []).
End Router.

(** ** The backing store

    The tables and the view live in the hosted database; their declarations
    are not among the sources. *)

Module Store.
Section Tables.
Context `{Scalars}.

(** Modelled from the spec: the [pilots] table, keyed by [id], with an
    owner reference [user_id].  Other columns are not read here. *)
Record pilot := { pilot_id : UUID; pilot_user_id : UUID }.

(** Modelled from the spec: the [corporations] table, with at least a
    name field. *)
Record corporation := { corp_id : UUID; corp_name : string }.

(** Modelled from the spec: the append-only [reputation_changes] ledger,
    referencing pilot, corporation and log entry, with a signed integer
    magnitude, optional notes and a creation timestamp. *)
Record reputation_change := {
  rc_id : UUID;
  rc_log_entry_id : UUID;
  rc_pilot_id : UUID;
  rc_corporation_id : UUID;
  rc_change_value : Z;
  rc_notes : option string;
  rc_created_at : datetime
}.

Record t := {
  pilots : list pilot;
  corporations : list corporation;
  reputation_changes : list reputation_change
}.

(** Modelled from the spec: the derived [pilot_reputation] view.  One row
    per (pilot, corporation) pair that occurs in the ledger, joined with
    the corporation for its name; the value is the sum of [change_value]
    over all ledger rows of the pair. *)
Record pilot_reputation_row := {
  pr_pilot_id : UUID;
  pr_corporation_id : UUID;
  pr_corporation_name : string;
  pr_reputation_value : Z
}.

Definition ledger_of (st : t) (p c : UUID) : list reputation_change :=
  List.filter (fun r => bool_decide (rc_pilot_id r = p /\ rc_corporation_id r = c))
    (reputation_changes st).

Definition sum_changes (rows : list reputation_change) : Z :=
  fold_right Z.add 0 (List.map rc_change_value rows).

Definition ledger_pairs (st : t) : list (UUID * UUID) :=
  remove_dups (List.map (fun r => (rc_pilot_id r, rc_corporation_id r))
                 (reputation_changes st)).

Definition find_corporation (st : t) (c : UUID) : option corporation :=
  List.find (fun co => bool_decide (corp_id co = c)) (corporations st).

Definition pilot_reputation (st : t) : list pilot_reputation_row :=
  flat_map (fun '(p, c) =>
              match find_corporation st c with
              | Some co =>
                  [{| pr_pilot_id := p; pr_corporation_id := c;
                      pr_corporation_name := corp_name co;
                      pr_reputation_value := sum_changes (ledger_of st p c) |}]
              | None => []
              end)
    (ledger_pairs st).
End Tables.
End Store.

(** ** PostgREST

    The client the router is given in production is the supabase client,
    which sends each request to the PostgREST service in front of the
    database.  This module is that service as its documentation describes
    it, for the requests a [select] builder can make: filters
    [column=eq.literal], [order], embedding of a to-one relation in
    [select], and [single()], which asks for exactly one JSON object and is
    refused (406, code PGRST116, raised by [execute()] as [APIError]) when
    the result has no row or several.  What a write does to the store is
    left open: it is the parameter [write] of [client]. *)

Module PostgREST.
Section Service.
Context `{Scalars}.

Inductive sqlval :=
| SqlNull
| SqlUuid (u : UUID)
| SqlInt (z : Z)
| SqlText (s : string)
| SqlTimestamp (t : datetime).

Definition sqlrow := list (string * sqlval).

Record relation := { rel_columns : list string; rel_rows : list sqlrow }.

Fixpoint cell (row : sqlrow) (column : string) : sqlval :=
  match row with
  | [] => SqlNull
  | (c, v) :: row' => if String.eqb c column then v else cell row' column
  end.

(** *** Tables and views as relations

    The columns of [reputation_changes] and of [pilot_reputation] are the
    fields of the [ReputationChange] and [PilotReputation] models. *)

Definition pilot_columns (p : Store.pilot) : sqlrow :=
  [("id", SqlUuid (Store.pilot_id p)); ("user_id", SqlUuid (Store.pilot_user_id p))].

Definition corporation_columns (c : Store.corporation) : sqlrow :=
  [("id", SqlUuid (Store.corp_id c)); ("name", SqlText (Store.corp_name c))].

Definition reputation_change_columns (r : Store.reputation_change) : sqlrow :=
  [("id", SqlUuid (Store.rc_id r));
   ("log_entry_id", SqlUuid (Store.rc_log_entry_id r));
   ("pilot_id", SqlUuid (Store.rc_pilot_id r));
   ("corporation_id", SqlUuid (Store.rc_corporation_id r));
   ("change_value", SqlInt (Store.rc_change_value r));
   ("notes", from_option SqlText SqlNull (Store.rc_notes r));
   ("created_at", SqlTimestamp (Store.rc_created_at r))].

Definition pilot_reputation_columns (r : Store.pilot_reputation_row) : sqlrow :=
  [("pilot_id", SqlUuid (Store.pr_pilot_id r));
   ("corporation_id", SqlUuid (Store.pr_corporation_id r));
   ("corporation_name", SqlText (Store.pr_corporation_name r));
   ("reputation_value", SqlInt (Store.pr_reputation_value r))].

Definition lookup_relation (st : Store.t) (name : string) : option relation :=
  if String.eqb name "pilots" then
    Some {| rel_columns := ["id"; "user_id"];
            rel_rows := List.map pilot_columns (Store.pilots st) |}
  else if String.eqb name "corporations" then
    Some {| rel_columns := ["id"; "name"];
            rel_rows := List.map corporation_columns (Store.corporations st) |}
  else if String.eqb name "reputation_changes" then
    Some {| rel_columns := ["id"; "log_entry_id"; "pilot_id"; "corporation_id";
                            "change_value"; "notes"; "created_at"];
            rel_rows := List.map reputation_change_columns (Store.reputation_changes st) |}
  else if String.eqb name "pilot_reputation" then
    Some {| rel_columns := ["pilot_id"; "corporation_id"; "corporation_name";
                            "reputation_value"];
            rel_rows := List.map pilot_reputation_columns (Store.pilot_reputation st) |}
  else None.

(** Modelled from the spec: the foreign keys of [reputation_changes], which
    references pilot and corporation.  The referencing column of [tbl] and
    the referenced column of [rel]. *)
Definition foreign_key (tbl rel : string) : option (string * string) :=
  if String.eqb tbl "reputation_changes" && String.eqb rel "corporations"
  then Some ("corporation_id", "id")
  else if String.eqb tbl "reputation_changes" && String.eqb rel "pilots"
  then Some ("pilot_id", "id")
  else None.

(** *** Filters *)

Definition sql_text (v : sqlval) : option string :=
  match v with
  | SqlNull => None
  | SqlUuid u => Some (str u)
  | SqlInt z => Some (pretty z)
  | SqlText s => Some s
  | SqlTimestamp t => Some (isoformat t)
  end.

(** [column=eq.literal]: the literal is compared with the text form of
    the cell; NULL equals nothing. *)
Definition matches (row : sqlrow) (f : filter_param) : bool :=
  match f with
  | FilterEq column literal =>
      match sql_text (cell row column) with
      | Some s => String.eqb s literal
      | None => false
      end
  end.

Definition filter_column (f : filter_param) : string :=
  match f with FilterEq column _ => column end.

(** *** Ordering *)

Definition sql_rank (v : sqlval) : Z :=
  match v with
  | SqlUuid _ => 0
  | SqlInt _ => 1
  | SqlText _ => 2
  | SqlTimestamp _ => 3
  | SqlNull => 4
  end.

Definition sql_leb (a b : sqlval) : bool :=
  match a, b with
  | SqlUuid x, SqlUuid y => String.leb (str x) (str y)
  | SqlInt x, SqlInt y => x <=? y
  | SqlText x, SqlText y => String.leb x y
  | SqlTimestamp x, SqlTimestamp y => x <=? y
  | _, _ => sql_rank a <=? sql_rank b
  end.

Definition row_le (column : string) (desc : bool) (r1 r2 : sqlrow) : Prop :=
  if desc then sql_leb (cell r2 column) (cell r1 column)
  else sql_leb (cell r1 column) (cell r2 column).

Global Instance row_le_dec column desc r1 r2 : Decision (row_le column desc r1 r2).
Proof. unfold row_le. destruct desc; apply _. Defined.

(** [order=k1.desc,k2.asc,...]: sorted on the first key, later keys
    arrange rows within it. *)
Definition order_rows (keys : list (string * bool)) (rows : list sqlrow) : list sqlrow :=
  fold_right (fun '(column, desc) acc => merge_sort (row_le column desc) acc) rows keys.

(** *** The [select] parameter *)

Inductive select_item :=
| SelColumn (name : string)
| SelEmbed (rel : string) (columns : list string).

Definition flush (cur : string) : list string :=
  if String.eqb cur "" then [] else [cur].

(** [cur] is the name being read; [emb] is the embedded relation being
    read and its columns so far, if any.  Blanks are dropped. *)
Fixpoint parse_select (s : string) (cur : string)
    (emb : option (string * list string)) : list select_item :=
  match s with
  | EmptyString =>
      match emb with
      | None => List.map SelColumn (flush cur)
      | Some (rel, cols) => [SelEmbed rel (cols ++ flush cur)]
      end
  | String c s' =>
      if Ascii.eqb c " " then parse_select s' cur emb else
      match emb with
      | None =>
          if Ascii.eqb c "," then List.map SelColumn (flush cur) ++ parse_select s' "" None
          else if Ascii.eqb c "(" then parse_select s' "" (Some (cur, []))
          else parse_select s' (cur ++ String c "")%string None
      | Some (rel, cols) =>
          if Ascii.eqb c "," then parse_select s' "" (Some (rel, cols ++ flush cur))
          else if Ascii.eqb c ")" then SelEmbed rel (cols ++ flush cur) :: parse_select s' "" None
          else parse_select s' (cur ++ String c "")%string emb
      end
  end.

Definition has_column (rel : relation) (c : string) : bool :=
  String.eqb c "*" || existsb (String.eqb c) (rel_columns rel).

Definition expand (rel : relation) (cols : list string) : list string :=
  flat_map (fun c => if String.eqb c "*" then rel_columns rel else [c]) cols.

(** *** Rendering rows as JSON objects *)

Definition json_of (v : sqlval) : value :=
  match v with
  | SqlNull => VNone
  | SqlUuid u => VStr (str u)
  | SqlInt z => VInt z
  | SqlText s => VStr s
  | SqlTimestamp t => VStr (isoformat t)
  end.

Definition render_columns (cols : list string) (row : sqlrow) : dict :=
  List.map (fun c => (c, json_of (cell row c))) cols.

Global Instance sqlval_eq_dec : EqDecision sqlval.
Proof. solve_decision. Defined.

(** A to-one embedding: the referenced row as an object, [null] when
    there is none. *)
Definition render_embed (st : Store.t) (tbl : string) (row : sqlrow)
    (rel : string) (cols : list string) : value :=
  match foreign_key tbl rel, lookup_relation st rel with
  | Some (fk, pk), Some target =>
      match List.find (fun t => bool_decide (cell t pk = cell row fk /\ cell row fk <> SqlNull))
              (rel_rows target) with
      | Some t => VDict (render_columns (expand target cols) t)
      | None => VNone
      end
  | _, _ => VNone
  end.

Definition render_item (st : Store.t) (tbl : string) (rel : relation)
    (row : sqlrow) (item : select_item) : dict :=
  match item with
  | SelColumn c => render_columns (expand rel [c]) row
  | SelEmbed r cols => [(r, render_embed st tbl row r cols)]
  end.

Definition render (st : Store.t) (tbl : string) (rel : relation)
    (items : list select_item) (row : sqlrow) : dict :=
  flat_map (render_item st tbl rel row) items.

(** *** Requests the service refuses *)

Definition undefined_column : exn := APIError "42703" "column does not exist".
Definition undefined_table : exn := APIError "PGRST205" "table not found".
Definition undefined_relationship : exn := APIError "PGRST200" "relationship not found".

Definition item_ok (st : Store.t) (tbl : string) (rel : relation)
    (item : select_item) : option exn :=
  match item with
  | SelColumn c => if has_column rel c then None else Some undefined_column
  | SelEmbed r cols =>
      match foreign_key tbl r, lookup_relation st r with
      | Some _, Some target =>
          if forallb (has_column target) cols then None else Some undefined_column
      | _, _ => Some undefined_relationship
      end
  end.

Definition first_error (es : list (option exn)) : option exn :=
  List.fold_right (fun e acc => match e with Some _ => e | None => acc end) None es.

Definition request_error (st : Store.t) (q : request) (rel : relation)
    (items : list select_item) : option exn :=
  first_error
    (List.map (item_ok st (r_table q) rel) items
     ++ List.map (fun f => if has_column rel (filter_column f) then None
                           else Some undefined_column) (r_filters q)
     ++ List.map (fun k => if has_column rel (fst k) then None
                           else Some undefined_column) (r_order q)).

(** *** Reads *)

(** [single()] asks for exactly one object: with no row or several rows
    the service answers 406 with code PGRST116 and [execute()] raises
    [APIError]. *)
Definition not_single (n : nat) : exn :=
  APIError "PGRST116" ("The result contains " ++ pretty n ++ " rows")%string.

Definition get_rows (st : Store.t) (q : request) (rel : relation) : list sqlrow :=
  order_rows (r_order q)
    (List.filter (fun row => forallb (matches row) (r_filters q)) (rel_rows rel)).

Definition read (st : Store.t) (q : request) : outcome APIResponse :=
  match lookup_relation st (r_table q) with
  | None => Raise undefined_table
  | Some rel =>
      let items := parse_select (r_columns q) "" None in
      match request_error st q rel items with
      | Some e => Raise e
      | None =>
          let objects := List.map (render st (r_table q) rel items) (get_rows st q rel) in
          if r_single q then
            match objects with
            | [o] => Return {| data := VDict o |}
            | _ => Raise (not_single (length objects))
            end
          else Return {| data := VList (List.map VDict objects) |}
      end
  end.

(** The client of the router, connected to a store.  [write] is what the
    service does with a request that is not a read. *)
Definition client (write : Client Store.t) : Client Store.t :=
  fun q st =>
    match r_method q with
    | GET => (st, read st q)
    | _ => write q st
    end.
End Service.
End PostgREST.

(** Running a handler against a store, with nothing sent yet. *)
Definition run {W A} (m : py W A) (w : W) : session W * outcome A :=
  m {| backend := w; sent := [] |}.
Definition result_of {W A} (m : py W A) (w : W) : outcome A := snd (run m w).
Definition store_after {W A} (m : py W A) (w : W) : W := backend (fst (run m w)).
Definition requests_of {W A} (m : py W A) (w : W) : list request := sent (fst (run m w)).

(** ** A concrete choice of scalars

    UUIDs are given by their text, instants by the decimal numeral of their
    count; the validators accept exactly the matching Python values.  Used
    to run the definitions on concrete stores. *)

Module Text.
Definition parse_uuid (v : value) : option string :=
  match v with VStr s => Some s | _ => None end.
Definition print_instant (t : datetime) : string :=
  DecimalString.NilEmpty.string_of_int (Z.to_int t).
Definition parse_instant (v : value) : option datetime :=
  match v with
  | VStr s => Z.of_int <$> DecimalString.NilEmpty.int_of_string s
  | _ => None
  end.
Definition parse_int (v : value) : option Z :=
  match v with VInt z => Some z | _ => None end.
Definition parse_str (v : value) : option string :=
  match v with VStr s => Some s | _ => None end.
Definition parse_bool (v : value) : option bool :=
  match v with VBool b => Some b | _ => None end.

Global Instance scalars : Scalars := {|
  UUID := string;
  str := fun u => u;
  isoformat := print_instant;
  validate_uuid := parse_uuid;
  validate_datetime := parse_instant;
  validate_int := parse_int;
  validate_str := parse_str;
  validate_bool := parse_bool
|}.

Global Instance laws : ScalarLaws.
Proof.
  split; try reflexivity.
  intros t. cbn. unfold print_instant.
  rewrite DecimalString.NilEmpty.isi. cbn. now rewrite DecimalZ.of_to.
Qed.

Definition uuid (s : string) : UUID := s.
Definition user (s : string) : User.t := {| User.id := uuid s |}.
End Text.

(** ** Vocabulary of the properties *)

Section Vocabulary.
Context `{Scalars}.
Implicit Types (P : UUID) (U : User.t) (st : Store.t).

(** The three requests the router builds. *)
Definition ownership_request P U : request :=
  table "pilots" |> select "id" |> eq "id" (str P)
    |> eq "user_id" (str (User.id U)) |> single.
Definition reputation_request P : request :=
  table "pilot_reputation" |> select "*" |> eq "pilot_id" (str P).
Definition history_request P : request :=
  table "reputation_changes" |> select "*, corporations(name)"
    |> eq "pilot_id" (str P) |> order "created_at" true.

(** What the guard makes of the answer to its lookup, and what each endpoint
    makes of the answer to its query. *)
Definition guard_of (a : outcome APIResponse) : outcome bool :=
  match a with
  | Return result => Return (negb (is_None (data result)))
  | Raise e => Raise e
  end.

Definition reputation_of (a : outcome APIResponse) : outcome (list PilotReputation.t) :=
  result ← a;
  rows ← iter (data result);
  mapM (fun r => kwargs ← unpack r; PilotReputation.init kwargs) rows.

Definition history_of (a : outcome APIResponse)
    : outcome (list ReputationChangeWithCorp.t) :=
  result ← a;
  rows ← iter (data result);
  for_append rows history_entry [].

(** One endpoint, step by step: the guard's lookup, then the branch on its
    result, then the endpoint's own query on the store the lookup left. *)
Definition endpoint_run {W A} (q : request) (k : outcome APIResponse -> outcome A)
    (db : Client W) P U (w : W) : session W * outcome A :=
  let w1 := fst (db (ownership_request P U) w) in
  match guard_of (snd (db (ownership_request P U) w)) with
  | Raise e => ({| backend := w1; sent := [ownership_request P U] |}, Raise e)
  | Return false =>
      ({| backend := w1; sent := [ownership_request P U] |},
       Raise (HTTPException 404 "Pilot not found"))
  | Return true =>
      ({| backend := fst (db q w1); sent := [ownership_request P U; q] |},
       k (snd (db q w1)))
  end.

(** The pilot rows with identifier [P] whose owner is [U]. *)
Definition owned_by st P U : list Store.pilot :=
  List.filter (fun p => bool_decide (Store.pilot_id p = P /\ Store.pilot_user_id p = User.id U))
    (Store.pilots st).

(** The rows of the aggregate view, and of the ledger, for pilot [P]. *)
Definition view_of st P : list Store.pilot_reputation_row :=
  List.filter (fun r => bool_decide (Store.pr_pilot_id r = P)) (Store.pilot_reputation st).
Definition ledger_for st P : list Store.reputation_change :=
  List.filter (fun r => bool_decide (Store.rc_pilot_id r = P)) (Store.reputation_changes st).

(** A view row as the JSON object the service sends, and as the record the
    endpoint makes of it. *)
Definition view_object (r : Store.pilot_reputation_row) : dict :=
  [("pilot_id", VStr (str (Store.pr_pilot_id r)));
   ("corporation_id", VStr (str (Store.pr_corporation_id r)));
   ("corporation_name", VStr (Store.pr_corporation_name r));
   ("reputation_value", VInt (Store.pr_reputation_value r))].
Definition aggregate_of (r : Store.pilot_reputation_row) : PilotReputation.t :=
  {| PilotReputation.pilot_id := Store.pr_pilot_id r;
     PilotReputation.corporation_id := Store.pr_corporation_id r;
     PilotReputation.corporation_name := Store.pr_corporation_name r;
     PilotReputation.reputation_value := Store.pr_reputation_value r |}.

(** A ledger row as the JSON object the service sends for
    [select=*,corporations(name)], and as the record the endpoint makes of
    it when the corporation is called [name]. *)
Definition change_object (r : Store.reputation_change) : dict :=
  [("id", VStr (str (Store.rc_id r)));
   ("log_entry_id", VStr (str (Store.rc_log_entry_id r)));
   ("pilot_id", VStr (str (Store.rc_pilot_id r)));
   ("corporation_id", VStr (str (Store.rc_corporation_id r)));
   ("change_value", VInt (Store.rc_change_value r));
   ("notes", from_option VStr VNone (Store.rc_notes r));
   ("created_at", VStr (isoformat (Store.rc_created_at r)))].
Definition corporation_object st (r : Store.reputation_change) : value :=
  match Store.find_corporation st (Store.rc_corporation_id r) with
  | Some co => VDict [("name", VStr (Store.corp_name co))]
  | None => VNone
  end.
Definition history_object st (r : Store.reputation_change) : dict :=
  change_object r ++ [("corporations", corporation_object st r)].
Definition entry_of (r : Store.reputation_change) (name : string)
    : ReputationChangeWithCorp.t :=
  {| ReputationChangeWithCorp.base :=
       {| ReputationChange.base :=
            {| ReputationChangeCreate.corporation_id := Store.rc_corporation_id r;
               ReputationChangeCreate.change_value := Store.rc_change_value r;
               ReputationChangeCreate.notes := Store.rc_notes r |};
          ReputationChange.id := Store.rc_id r;
          ReputationChange.log_entry_id := Store.rc_log_entry_id r;
          ReputationChange.pilot_id := Store.rc_pilot_id r;
          ReputationChange.created_at := Store.rc_created_at r |};
     ReputationChangeWithCorp.corporation_name := name |}.

(** [U] owns [P]: exactly one pilot row has identifier [P] and owner [U]. *)
Definition owns st U P : Prop := exists p, owned_by st P U = [p].

(** The operations of the subsystem, the store a call leaves, the requests
    it sends, and the store a sequence of calls leaves. *)
Inductive call :=
| VerifyPilotOwnership (P : UUID) (U : User.t)
| ListPilotReputation (P : UUID) (U : User.t)
| ListPilotReputationHistory (P : UUID) (U : User.t).

Definition session_after_call {W} (db : Client W) (c : call) (w : W) : session W :=
  match c with
  | VerifyPilotOwnership P U => fst (run (verify_pilot_ownership P U db) w)
  | ListPilotReputation P U => fst (run (list_pilot_reputation P U db) w)
  | ListPilotReputationHistory P U => fst (run (list_pilot_reputation_history P U db) w)
  end.

Definition store_after_calls {W} (db : Client W) (cs : list call) (w : W) : W :=
  fold_left (fun w c => backend (session_after_call db c w)) cs w.

(** Newest first: no entry is older than the one after it. *)
Definition newest_first : list ReputationChangeWithCorp.t -> Prop :=
  Sorted (fun a b => ReputationChangeWithCorp.created_at a
                     >= ReputationChangeWithCorp.created_at b).
End Vocabulary.

(** A client that finds no row and says so with [data = None]. *)
Definition empty_handed : Client unit :=
  fun _ w => (w, Return {| data := VNone |}).

(** ** The scenario of the spec

    Pilot P, owned by user U, has three ledger rows with corporation C:
    +5, -2 and +10, created at t1 < t2 < t3.  User V is someone else, and
    no pilot Q exists. *)

Module Scenario.
Import Text.

Definition P : UUID := uuid "pilot-P".
Definition Q : UUID := uuid "pilot-Q".
Definition C : UUID := uuid "corp-C".
Definition U : User.t := user "user-U".
Definition V : User.t := user "user-V".

Definition change (i : string) (c : UUID) (v : Z) (t : datetime) : Store.reputation_change :=
  {| Store.rc_id := uuid i; Store.rc_log_entry_id := uuid "log-1";
     Store.rc_pilot_id := P; Store.rc_corporation_id := c;
     Store.rc_change_value := v; Store.rc_notes := None; Store.rc_created_at := t |}.

Definition store : Store.t :=
  {| Store.pilots := [{| Store.pilot_id := P; Store.pilot_user_id := User.id U |}];
     Store.corporations := [{| Store.corp_id := C; Store.corp_name := "C-Name" |}];
     Store.reputation_changes := [change "r1" C 5 1; change "r2" C (-2) 2; change "r3" C 10 3] |}.

(** The same store with one more ledger row, whose corporation has no row
    in [corporations]. *)
Definition store_without_corporation : Store.t :=
  {| Store.pilots := Store.pilots store;
     Store.corporations := Store.corporations store;
     Store.reputation_changes :=
       Store.reputation_changes store ++ [change "r4" (uuid "corp-D") 1 4] |}.

(** A service on which a write empties the ledger. *)
Definition wipe : Client Store.t :=
  fun _ st =>
    ({| Store.pilots := Store.pilots st; Store.corporations := Store.corporations st;
        Store.reputation_changes := [] |},
     Return {| data := VList [] |}).

Definition db : Client Store.t := PostgREST.client wipe.

Definition aggregate : PilotReputation.t :=
  {| PilotReputation.pilot_id := P; PilotReputation.corporation_id := C;
     PilotReputation.corporation_name := "C-Name"; PilotReputation.reputation_value := 13 |}.

(** Keyword arguments of a gear record that names the log entry of its loss
    and gives no [is_lost]. *)
Definition lost_gear : dict :=
  [("name", VStr "Relic"); ("id", VStr "gear-1"); ("pilot_id", VStr "pilot-P");
   ("acquired_date", VStr "1"); ("lost_log_id", VStr "log-9");
   ("created_at", VStr "1"); ("updated_at", VStr "2")].
End Scenario.

(** ** Totals of a history *)

Section Totals.
Context `{Scalars}.

(** The sum of the change values of the history entries with corporation
    [c]. *)
Definition history_total (c : UUID) (hist : list ReputationChangeWithCorp.t) : Z :=
  fold_right Z.add 0
    (List.map ReputationChangeWithCorp.change_value
       (List.filter (fun h => bool_decide (ReputationChangeWithCorp.corporation_id h = c)) hist)).

End Totals.

(** ** Clients for single runs *)

Module Doubles.
(** A client whose every request fails with [e]. *)
Definition failing (e : exn) : Client unit :=
  fun _ w => (w, Raise e).

(** A client that answers a [single()] lookup with one row and every other
    request with [a]. *)
Definition owner_with (a : outcome APIResponse) : Client unit :=
  fun q w =>
    (w, if r_single q then Return {| data := VDict [("id", VStr "pilot-P")] |} else a).

(** An outage of the service, as [execute()] raises it. *)
Definition outage : exn := APIError "503" "service unavailable".

(** A row of the aggregate view and a row of the history as JSON objects,
    and a row of the history that also has a [corporation_name] column. *)
Definition view_row : value :=
  VDict [("pilot_id", VStr "pilot-P"); ("corporation_id", VStr "corp-C");
         ("corporation_name", VStr "C-Name"); ("reputation_value", VInt 13)].
Definition history_row : value :=
  VDict (change_object (Scenario.change "r1" Scenario.C 5 1)
         ++ [("corporations", VDict [("name", VStr "C-Name")])]).
Definition history_row_with_name_column : dict :=
  change_object (Scenario.change "r1" Scenario.C 5 1)
  ++ [("corporation_name", VStr "C-Name");
      ("corporations", VDict [("name", VStr "C-Name")])].

(** Keyword arguments of a new gear entry. *)
Definition new_gear : dict := [("name", VStr "Relic"); ("notes", VNone)].
End Doubles.

(** * Properties *)

(** ** Lists and loops *)

Lemma filter_rows {A B} (cols : A -> B) (f : B -> bool) (g : A -> bool) l :
  (forall a, f (cols a) = g a) ->
  List.filter f (List.map cols l) = List.map cols (List.filter g l).
Proof. intros E. rewrite filter_map_swap. f_equal. apply List.filter_ext, E. Qed.

Lemma find_rows {A B} (cols : A -> B) (f : B -> bool) (g : A -> bool) l :
  (forall a, f (cols a) = g a) ->
  List.find f (List.map cols l) = cols <$> List.find g l.
Proof.
  intros E. induction l as [|a l IH]; cbn; [done|].
  rewrite E. destruct (g a); [done|apply IH].
Qed.

(** The loop that appends is a map that stops at the first exception. *)
Lemma for_append_spec {A B} (body : A -> outcome B) xs acc l :
  for_append xs body acc = Return l <->
  exists ys, l = acc ++ ys /\ Forall2 (fun x y => body x = Return y) xs ys.
Proof.
  revert acc. induction xs as [|x xs IH]; intros acc; cbn.
  - split.
    + intros [= <-]. exists []. by rewrite app_nil_r.
    + intros (ys & -> & Hys). inversion Hys. by rewrite app_nil_r.
  - unfold mbind, outcome_bind. destruct (body x) as [y|e] eqn:Ex.
    + rewrite IH. split.
      * intros (ys & -> & Hys). exists (y :: ys). rewrite <- app_assoc. split; [done|].
        by constructor.
      * intros (ys & -> & Hys). inversion Hys as [|? y' ? ys' Hy Hys']; subst.
        rewrite Ex in Hy. injection Hy as <-. exists ys'. by rewrite <- app_assoc.
    + split; [done|]. intros (ys & -> & Hys). inversion Hys; subst. congruence.
Qed.

Lemma mapM_outcome_spec {A B} (f : A -> outcome B) xs l :
  mapM f xs = Return l <-> Forall2 (fun x y => f x = Return y) xs l.
Proof.
  revert l. induction xs as [|x xs IH]; intros l; cbn.
  - split; [intros [= <-]; constructor|]. by inversion 1.
  - unfold mbind, outcome_bind, mret, outcome_ret. destruct (f x) as [y|e] eqn:Ex.
    + destruct (mapM f xs) as [ys|e] eqn:Exs.
      * split.
        -- intros [= <-]. constructor; [done|]. by apply IH.
        -- inversion 1 as [|? y' ? ys' Hy Hys']; subst. rewrite Ex in Hy. injection Hy as <-.
           apply IH in Hys'. by injection Hys' as <-.
      * split; [done|]. inversion 1 as [|? y' ? ys' Hy Hys']; subst.
        apply IH in Hys'. done.
    + split; [done|]. inversion 1; congruence.
Qed.

(** Sortedness carries over along a pairing of two lists. *)
Lemma Sorted_Forall2 {A B} (R1 : relation A) (R2 : relation B) (Q : A -> B -> Prop) l1 l2 :
  (forall x y x' y', Q x x' -> Q y y' -> R1 x y -> R2 x' y') ->
  Forall2 Q l1 l2 -> Sorted R1 l1 -> Sorted R2 l2.
Proof.
  intros HR HQ. induction HQ as [|x x' l1 l2 Hx HQ IH]; intros HS; [constructor|].
  apply Sorted_inv in HS as [HS Hhd]. constructor; [by apply IH|].
  destruct HQ; [constructor|]. apply HdRel_inv in Hhd. constructor. eauto.
Qed.

(** ** The router, against any client *)

Section RouterFacts.
Context `{Scalars} {W : Type}.
Implicit Types (db : Client W) (w : W) (P : UUID) (U : User.t).

Lemma verify_pilot_ownership_run db P U w :
  run (verify_pilot_ownership P U db) w =
    ({| backend := fst (db (ownership_request P U) w);
        sent := [ownership_request P U] |},
     guard_of (snd (db (ownership_request P U) w))).
Proof.
  unfold run, verify_pilot_ownership, execute, mbind, py_bind; cbn.
  fold (ownership_request P U).
  destruct (db (ownership_request P U) w) as [w' [result|e]]; reflexivity.
Qed.

Lemma list_pilot_reputation_run db P U w :
  run (list_pilot_reputation P U db) w
  = endpoint_run (reputation_request P) reputation_of db P U w.
Proof.
  unfold run, endpoint_run, list_pilot_reputation, verify_pilot_ownership,
    execute, lift, raise, mbind, mret, py_bind, py_ret; cbn.
  fold (ownership_request P U) (reputation_request P).
  destruct (db (ownership_request P U) w) as [w1 [result|e]]; cbn; [|reflexivity].
  destruct (is_None (data result)); cbn; [reflexivity|].
  destruct (db (reputation_request P) w1) as [w2 [result2|e]]; reflexivity.
Qed.

Lemma list_pilot_reputation_history_run db P U w :
  run (list_pilot_reputation_history P U db) w
  = endpoint_run (history_request P) history_of db P U w.
Proof.
  unfold run, endpoint_run, list_pilot_reputation_history, verify_pilot_ownership,
    execute, lift, raise, mbind, mret, py_bind, py_ret; cbn.
  fold (ownership_request P U) (history_request P).
  destruct (db (ownership_request P U) w) as [w1 [result|e]]; cbn; [|reflexivity].
  destruct (is_None (data result)); cbn; [reflexivity|].
  destruct (db (history_request P) w1) as [w2 [result2|e]]; reflexivity.
Qed.

Lemma endpoint_run_guard_false {A} q (k : outcome APIResponse -> outcome A) db P U w :
  result_of (verify_pilot_ownership P U db) w = Return false ->
  endpoint_run q k db P U w =
    (fst (run (verify_pilot_ownership P U db) w),
     Raise (HTTPException 404 "Pilot not found")).
Proof.
  unfold result_of. rewrite verify_pilot_ownership_run. cbn. intros Hg.
  unfold endpoint_run. rewrite Hg. reflexivity.
Qed.

Lemma endpoint_run_requests {A} q (k : outcome APIResponse -> outcome A) db P U w :
  sent (fst (endpoint_run q k db P U w)) = [ownership_request P U]
  \/ (result_of (verify_pilot_ownership P U db) w = Return true
      /\ sent (fst (endpoint_run q k db P U w)) = [ownership_request P U; q]
      /\ snd (endpoint_run q k db P U w)
         = k (snd (db q (store_after (verify_pilot_ownership P U db) w)))).
Proof.
  unfold result_of, store_after. rewrite verify_pilot_ownership_run. cbn.
  unfold endpoint_run.
  destruct (guard_of (snd (db (ownership_request P U) w))) as [[|]|e]; cbn; auto.
Qed.
End RouterFacts.


Section GuardedEndpoints.
Context `{Scalars} {W : Type}.
Implicit Types (db : Client W) (w : W) (P : UUID) (U : User.t).

(** C3. When the ownership guard returns false, either endpoint fails with
    the not-found exception, and the guard's lookup is the only request that
    was sent: neither the read of the reputation view nor the read of the
    history is issued.  In every run, the guard's lookup is the first request;
    the endpoint's own query is sent after it, only when the guard returned
    true, and it is answered on the store the lookup left. *)
Theorem guard_false_is_not_found_before_any_query db w P U :
  (result_of (verify_pilot_ownership P U db) w = Return false ->
   run (list_pilot_reputation P U db) w
     = ({| backend := store_after (verify_pilot_ownership P U db) w;
           sent := [ownership_request P U] |},
        Raise (HTTPException 404 "Pilot not found"))
   /\ run (list_pilot_reputation_history P U db) w
     = ({| backend := store_after (verify_pilot_ownership P U db) w;
           sent := [ownership_request P U] |},
        Raise (HTTPException 404 "Pilot not found")))
  /\ (requests_of (list_pilot_reputation P U db) w = [ownership_request P U]
      \/ (result_of (verify_pilot_ownership P U db) w = Return true
          /\ requests_of (list_pilot_reputation P U db) w
             = [ownership_request P U; reputation_request P]
          /\ result_of (list_pilot_reputation P U db) w
             = reputation_of
                 (snd (db (reputation_request P)
                         (store_after (verify_pilot_ownership P U db) w)))))
  /\ (requests_of (list_pilot_reputation_history P U db) w = [ownership_request P U]
      \/ (result_of (verify_pilot_ownership P U db) w = Return true
          /\ requests_of (list_pilot_reputation_history P U db) w
             = [ownership_request P U; history_request P]
          /\ result_of (list_pilot_reputation_history P U db) w
             = history_of
                 (snd (db (history_request P)
                         (store_after (verify_pilot_ownership P U db) w))))).
Proof.
  split; [intros Hg; split|split].
  - rewrite list_pilot_reputation_run, (endpoint_run_guard_false _ _ _ _ _ _ Hg).
    unfold store_after. now rewrite verify_pilot_ownership_run.
  - rewrite list_pilot_reputation_history_run, (endpoint_run_guard_false _ _ _ _ _ _ Hg).
    unfold store_after. now rewrite verify_pilot_ownership_run.
  - unfold requests_of, result_of at 2. rewrite list_pilot_reputation_run.
    apply endpoint_run_requests.
  - unfold requests_of, result_of at 2. rewrite list_pilot_reputation_history_run.
    apply endpoint_run_requests.
Qed.
End GuardedEndpoints.

Lemma guard_false_is_not_found_before_any_query_witness :
  run (list_pilot_reputation (Text.uuid "p1") (Text.user "u1") empty_handed) tt
    = ({| backend := tt; sent := [ownership_request (Text.uuid "p1") (Text.user "u1")] |},
       Raise (HTTPException 404 "Pilot not found"))
  /\ run (list_pilot_reputation_history (Text.uuid "p1") (Text.user "u1") empty_handed) tt
    = ({| backend := tt; sent := [ownership_request (Text.uuid "p1") (Text.user "u1")] |},
       Raise (HTTPException 404 "Pilot not found")).
Proof.
  apply (proj1 (guard_false_is_not_found_before_any_query
                  empty_handed tt (Text.uuid "p1") (Text.user "u1"))).
  reflexivity.
Defined.

(** ** The service *)

Section ServiceFacts.
Context `{HL : ScalarLaws}.
Implicit Types (P : UUID) (U : User.t) (st : Store.t).

Lemma str_inj (u v : UUID) : str u = str v -> u = v.
Proof.
  intros E. assert (Some u = Some v) as [= ->]; [|done].
  by rewrite <- !validate_uuid_str, E.
Qed.

Lemma str_eqb (u v : UUID) : String.eqb (str u) (str v) = bool_decide (u = v).
Proof.
  destruct (String.eqb_spec (str u) (str v)) as [E|E].
  - apply str_inj in E. by rewrite bool_decide_eq_true_2.
  - rewrite bool_decide_eq_false_2; [done|]. by intros ->.
Qed.

Lemma parse_select_id :
  PostgREST.parse_select "id" "" None = [PostgREST.SelColumn "id"].
Proof. reflexivity. Qed.

Lemma parse_select_star :
  PostgREST.parse_select "*" "" None = [PostgREST.SelColumn "*"].
Proof. reflexivity. Qed.

Lemma parse_select_star_corporations :
  PostgREST.parse_select "*, corporations(name)" "" None
  = [PostgREST.SelColumn "*"; PostgREST.SelEmbed "corporations" ["name"]].
Proof. reflexivity. Qed.

Ltac open_read :=
  unfold PostgREST.read, ownership_request, reputation_request, history_request;
  cbn [r_table r_columns table select eq order single PostgREST.lookup_relation
       String.eqb Ascii.eqb Bool.eqb];
  rewrite ?parse_select_id, ?parse_select_star, ?parse_select_star_corporations;
  cbn.

(** The guard's lookup: the one owned row, or the refusal of [single()]. *)
Lemma read_ownership st P U :
  PostgREST.read st (ownership_request P U) =
  match owned_by st P U with
  | [p] => Return {| data := VDict [("id", VStr (str (Store.pilot_id p)))] |}
  | l => Raise (PostgREST.not_single (length l))
  end.
Proof.
  open_read.
  rewrite (filter_rows PostgREST.pilot_columns _
             (fun p => bool_decide (Store.pilot_id p = P /\ Store.pilot_user_id p = User.id U))).
  2:{ intros p. cbn. rewrite !str_eqb, andb_true_r.
      apply eq_true_iff_eq. rewrite andb_true_iff, !bool_decide_eq_true. tauto. }
  fold (owned_by st P U).
  destruct (owned_by st P U) as [|p [|p' l]]; cbn; rewrite ?List.length_map; reflexivity.
Qed.

Lemma read_reputation st P :
  PostgREST.read st (reputation_request P) =
  Return {| data := VList (List.map (fun r => VDict (view_object r)) (view_of st P)) |}.
Proof.
  open_read.
  rewrite (filter_rows PostgREST.pilot_reputation_columns _
             (fun r => bool_decide (Store.pr_pilot_id r = P))).
  2:{ intros p. cbn. by rewrite !str_eqb, andb_true_r. }
  fold (view_of st P). rewrite !List.map_map. reflexivity.
Qed.

Lemma sql_leb_total (a b : PostgREST.sqlval) :
  PostgREST.sql_leb a b \/ PostgREST.sql_leb b a.
Proof.
  destruct a, b; cbn; try (by left); try (by right);
    try (destruct (String.leb_total (str u) (str u0)) as [->| ->]; by auto);
    try (destruct (String.leb_total s s0) as [->| ->]; by auto);
    rewrite !Is_true_true, !Z.leb_le; lia.
Qed.

Global Instance row_le_total column desc : Total (PostgREST.row_le column desc).
Proof. intros r1 r2. unfold PostgREST.row_le. destruct desc; apply sql_leb_total. Qed.

Lemma render_history_object st rel (r : Store.reputation_change) :
  PostgREST.rel_columns rel = ["id"; "log_entry_id"; "pilot_id"; "corporation_id";
                                "change_value"; "notes"; "created_at"] ->
  PostgREST.render st "reputation_changes" rel
    [PostgREST.SelColumn "*"; PostgREST.SelEmbed "corporations" ["name"]]
    (PostgREST.reputation_change_columns r)
  = history_object st r.
Proof.
  intros Hc. unfold PostgREST.render, history_object. cbn. rewrite Hc. cbn.
  unfold change_object. repeat f_equal.
  - by destruct (Store.rc_notes r).
  - unfold PostgREST.render_embed, corporation_object. cbn.
    rewrite (find_rows PostgREST.corporation_columns _
               (fun co => bool_decide (Store.corp_id co = Store.rc_corporation_id r))).
    2:{ intros co. cbn. apply bool_decide_ext. split; [by intros [[= ->] _]|by intros ->]. }
    unfold Store.find_corporation.
    by destruct (List.find _ _).
Qed.

(** The history query: the ledger rows of the pilot, in some order that is
    sorted on [created_at], newest first. *)
Lemma read_history st P :
  exists rows,
    rows ≡ₚ ledger_for st P
    /\ Sorted (fun a b => Store.rc_created_at b <= Store.rc_created_at a) rows
    /\ PostgREST.read st (history_request P)
       = Return {| data := VList (List.map (fun r => VDict (history_object st r)) rows) |}.
Proof.
  open_read.
  rewrite (filter_rows PostgREST.reputation_change_columns _
             (fun r => bool_decide (Store.rc_pilot_id r = P))).
  2:{ intros p. cbn. by rewrite !str_eqb, andb_true_r. }
  fold (ledger_for st P).
  set (R := PostgREST.row_le "created_at" true).
  pose proof (merge_sort_Permutation R
                (List.map PostgREST.reputation_change_columns (ledger_for st P))) as Hp.
  apply Permutation_map_inv in Hp as (rows & Erows & Hperm).
  exists rows. split; [by symmetry|]. split.
  - apply (Sorted_Forall2 R _ (fun x r => x = PostgREST.reputation_change_columns r)
             (List.map PostgREST.reputation_change_columns rows)).
    + intros x y a b -> ->. unfold R, PostgREST.row_le. cbn.
      rewrite Is_true_true. apply Z.leb_le.
    + clear. induction rows; constructor; auto.
    + rewrite <- Erows. apply Sorted_merge_sort, _.
  - rewrite Erows, !List.map_map. do 3 f_equal.
    apply List.map_ext. intros r. f_equal. by apply render_history_object.
Qed.

(** What the endpoints make of the objects the service sends. *)
Lemma init_view_object (r : Store.pilot_reputation_row) :
  PilotReputation.init (view_object r) = Return (aggregate_of r).
Proof.
  unfold PilotReputation.init, view_object, required. cbn.
  rewrite !validate_uuid_str, validate_str_VStr, validate_int_VInt. reflexivity.
Qed.

Lemma history_entry_object st (r : Store.reputation_change) :
  history_entry (VDict (history_object st r)) =
  match Store.find_corporation st (Store.rc_corporation_id r) with
  | Some co => Return (entry_of r (Store.corp_name co))
  | None => Raise AttributeError
  end.
Proof.
  unfold history_entry, history_object, corporation_object, change_object, entry_of.
  cbn. destruct (Store.find_corporation st (Store.rc_corporation_id r)) as [co|]; cbn; [|done].
  unfold ReputationChangeWithCorp.init, ReputationChangeWithCorp.fields,
    ReputationChange.fields, ReputationChangeCreate.fields, required, with_default.
  cbn.
  rewrite !validate_uuid_str, validate_str_VStr, validate_int_VInt, validate_datetime_isoformat.
  cbn.
  destruct (Store.rc_notes r) as [n|]; cbn; [rewrite validate_str_VStr|]; reflexivity.
Qed.
End ServiceFacts.

(** ** The aggregate view *)

Section ViewFacts.
Context `{Scalars}.
Implicit Types (st : Store.t).

Lemma ledger_pairs_spec st p c :
  In (p, c) (Store.ledger_pairs st) <-> Store.ledger_of st p c <> [].
Proof.
  unfold Store.ledger_pairs, Store.ledger_of.
  rewrite <- list_elem_of_In, elem_of_remove_dups, list_elem_of_In, in_map_iff. split.
  - intros (r & [= <- <-] & Hr) E.
    assert (In r []) as []. rewrite <- E. apply filter_In. split; [done|].
    by apply bool_decide_eq_true_2.
  - intros Hne. destruct (List.filter _ _) as [|r rs] eqn:E; [done|].
    assert (In r (r :: rs)) as Hr by (by left). rewrite <- E in Hr.
    apply filter_In in Hr as [Hr Hpc]. apply bool_decide_eq_true in Hpc as [<- <-]. eauto.
Qed.

(** A row of the view: its pair occurs in the ledger, its name is the
    corporation's, its value is the sum over the ledger rows of the pair. *)
Lemma pilot_reputation_spec st r :
  In r (Store.pilot_reputation st) <->
  Store.ledger_of st (Store.pr_pilot_id r) (Store.pr_corporation_id r) <> []
  /\ (exists co, Store.find_corporation st (Store.pr_corporation_id r) = Some co
                 /\ Store.pr_corporation_name r = Store.corp_name co)
  /\ Store.pr_reputation_value r
     = Store.sum_changes (Store.ledger_of st (Store.pr_pilot_id r) (Store.pr_corporation_id r)).
Proof.
  unfold Store.pilot_reputation. rewrite in_flat_map. split.
  - intros ([p c] & Hpc & Hr). apply ledger_pairs_spec in Hpc.
    destruct (Store.find_corporation st c) as [co|] eqn:Eco; [|done].
    destruct Hr as [<-|[]]. cbn. rewrite Eco. eauto.
  - intros (Hne & (co & Eco & Ename) & Eval).
    exists (Store.pr_pilot_id r, Store.pr_corporation_id r).
    split; [by apply ledger_pairs_spec|]. rewrite Eco. left.
    destruct r; cbn in *. by subst.
Qed.

Lemma pilot_reputation_NoDup st :
  NoDup (List.map (fun r => (Store.pr_pilot_id r, Store.pr_corporation_id r))
           (Store.pilot_reputation st)).
Proof.
  unfold Store.pilot_reputation.
  assert (NoDup (Store.ledger_pairs st)) as Hnd by apply NoDup_remove_dups.
  induction Hnd as [|[p c] ps Hnotin Hnd IH]; cbn; [constructor|].
  rewrite List.map_app. destruct (Store.find_corporation st c) as [co|]; cbn; [|done].
  constructor; [|done]. rewrite list_elem_of_In, in_map_iff.
  intros (r & [= <- <-] & Hr). apply in_flat_map in Hr as ([p' c'] & Hin & Hr).
  destruct (Store.find_corporation st c'); [|done]. destruct Hr as [<-|[]].
  cbn in Hnotin. by apply Hnotin, list_elem_of_In.
Qed.
End ViewFacts.

(** ** The router, against the service *)

Section OnPostgREST.
Context `{HL : ScalarLaws} (write : Client Store.t).
Implicit Types (P : UUID) (U : User.t) (st : Store.t).

Lemma client_read q st :
  r_method q = GET -> PostgREST.client write q st = (st, PostgREST.read st q).
Proof. unfold PostgREST.client. by intros ->. Qed.

Lemma endpoint_on_postgrest {A} q (k : outcome APIResponse -> outcome A) P U st :
  r_method q = GET ->
  endpoint_run q k (PostgREST.client write) P U st =
  match owned_by st P U with
  | [_] => ({| backend := st; sent := [ownership_request P U; q] |}, k (PostgREST.read st q))
  | l => ({| backend := st; sent := [ownership_request P U] |},
          Raise (PostgREST.not_single (length l)))
  end.
Proof.
  intros Hq. unfold endpoint_run.
  rewrite (client_read (ownership_request P U)) by reflexivity. cbn [fst snd].
  rewrite (client_read q) by done. rewrite read_ownership.
  destruct (owned_by st P U) as [|p [|p' l]]; reflexivity.
Qed.

(** The guard on the service: true for the one owned row, and the refusal
    of [single()] otherwise. *)
Lemma guard_on_postgrest P U st :
  result_of (verify_pilot_ownership P U (PostgREST.client write)) st =
  match owned_by st P U with
  | [_] => Return true
  | l => Raise (PostgREST.not_single (length l))
  end.
Proof.
  unfold result_of. rewrite verify_pilot_ownership_run.
  rewrite (client_read (ownership_request P U)) by reflexivity. cbn [fst snd].
  rewrite read_ownership.
  destruct (owned_by st P U) as [|p [|p' l]]; reflexivity.
Qed.

Lemma reputation_on_postgrest P U st :
  result_of (list_pilot_reputation P U (PostgREST.client write)) st =
  match owned_by st P U with
  | [_] => Return (List.map aggregate_of (view_of st P))
  | l => Raise (PostgREST.not_single (length l))
  end.
Proof.
  unfold result_of. rewrite list_pilot_reputation_run, endpoint_on_postgrest by reflexivity.
  destruct (owned_by st P U) as [|p [|p' l]]; try reflexivity.
  cbn [snd]. rewrite read_reputation. unfold reputation_of. cbn.
  apply mapM_outcome_spec. induction (view_of st P) as [|r rs IH]; cbn; constructor; [|done].
  cbn. apply init_view_object.
Qed.

Lemma history_on_postgrest P U st :
  exists rows,
    rows ≡ₚ ledger_for st P
    /\ Sorted (fun a b => Store.rc_created_at b <= Store.rc_created_at a) rows
    /\ result_of (list_pilot_reputation_history P U (PostgREST.client write)) st =
       match owned_by st P U with
       | [_] => for_append (List.map (fun r => VDict (history_object st r)) rows)
                  history_entry []
       | l => Raise (PostgREST.not_single (length l))
       end.
Proof.
  destruct (read_history st P) as (rows & Hperm & Hsorted & Hread).
  exists rows. split; [done|]. split; [done|].
  unfold result_of. rewrite list_pilot_reputation_history_run, endpoint_on_postgrest by reflexivity.
  destruct (owned_by st P U) as [|p [|p' ps]]; try reflexivity.
  cbn [snd]. by rewrite Hread.
Qed.

(** C4. A successful call to [list_pilot_reputation_history] returns the
    entries newest first: in every adjacent pair the first was created no
    earlier than the second.  There is one entry per ledger row of the pilot:
    the entries are, position by position, the records of a rearrangement of
    the pilot's ledger rows, each with the name of its corporation. *)
Theorem history_newest_first P U st l :
  result_of (list_pilot_reputation_history P U (PostgREST.client write)) st = Return l ->
  newest_first l
  /\ exists rows,
       rows ≡ₚ ledger_for st P
       /\ Forall2 (fun e r => exists co,
                     Store.find_corporation st (Store.rc_corporation_id r) = Some co
                     /\ e = entry_of r (Store.corp_name co)) l rows.
Proof.
  destruct (history_on_postgrest P U st) as (rows & Hperm & Hsorted & ->).
  destruct (owned_by st P U) as [|p [|p' ps]]; try discriminate.
  rewrite for_append_spec. intros (ys & -> & Hys). cbn.
  apply Forall2_fmap_l in Hys.
  assert (Forall2 (fun r e => exists co,
                     Store.find_corporation st (Store.rc_corporation_id r) = Some co
                     /\ e = entry_of r (Store.corp_name co)) rows ys) as Hent.
  { eapply Forall2_impl; [exact Hys|]. intros r e He.
    change (history_entry (VDict (history_object st r)) = Return e) in He.
    rewrite history_entry_object in He.
    destruct (Store.find_corporation st (Store.rc_corporation_id r)) as [co|]; [|done].
    injection He as <-. eauto. }
  split.
  - eapply Sorted_Forall2; [|exact Hent|exact Hsorted].
    intros x y x' y' (co & _ & ->) (co' & _ & ->). cbn. lia.
  - exists rows. split; [done|]. by apply Forall2_flip.
Qed.

(** C6. A call to [list_pilot_reputation] succeeds exactly when the caller
    owns the pilot, and its result is then the rows of the [pilot_reputation]
    view with the given pilot identifier, in the order of the view, each
    mapped field by field into a [PilotReputation]; for an owned pilot with
    no ledger row the result is the empty list. *)
Theorem reputation_is_the_view_of_the_pilot P U st :
  (forall l,
     result_of (list_pilot_reputation P U (PostgREST.client write)) st = Return l ->
     owns st U P /\ l = List.map aggregate_of (view_of st P))
  /\ (owns st U P ->
      result_of (list_pilot_reputation P U (PostgREST.client write)) st
      = Return (List.map aggregate_of (view_of st P)))
  /\ (owns st U P -> ledger_for st P = [] ->
      result_of (list_pilot_reputation P U (PostgREST.client write)) st = Return []).
Proof.
  rewrite reputation_on_postgrest. unfold owns. split; [|split].
  - intros l. destruct (owned_by st P U) as [|p [|p' ps]]; try discriminate.
    intros [= <-]. eauto.
  - by intros [p ->].
  - intros [p ->] Hnone. f_equal.
    destruct (view_of st P) as [|r rs] eqn:E; [done|].
    assert (In r (view_of st P)) as Hr by (rewrite E; by left).
    apply filter_In in Hr as [Hr HP]. apply bool_decide_eq_true in HP.
    apply pilot_reputation_spec in Hr as [Hne _]. rewrite HP in Hne.
    destruct (Store.ledger_of st P (Store.pr_corporation_id r)) as [|c cs] eqn:Ec; [done|].
    assert (In c (c :: cs)) as Hc by (by left). rewrite <- Ec in Hc.
    apply filter_In in Hc as [Hc Hpc]. apply bool_decide_eq_true in Hpc as [Hp _].
    assert (In c (ledger_for st P)) as Hin.
    { apply filter_In. split; [done|]. by apply bool_decide_eq_true_2. }
    rewrite Hnone in Hin. destruct Hin.
Qed.

(** C7. In the list a successful call to [list_pilot_reputation] returns,
    every aggregate is for the given pilot and its [reputation_value] is the
    sum of [change_value] over all ledger rows of its (pilot, corporation)
    pair; every corporation the pilot has a ledger row with has an aggregate;
    and no corporation has two. *)
Theorem reputation_value_is_the_sum P U st l :
  result_of (list_pilot_reputation P U (PostgREST.client write)) st = Return l ->
  (forall e, In e l ->
     PilotReputation.pilot_id e = P
     /\ PilotReputation.reputation_value e
        = Store.sum_changes (Store.ledger_of st P (PilotReputation.corporation_id e)))
  /\ (forall c co,
        Store.ledger_of st P c <> [] -> Store.find_corporation st c = Some co ->
        exists e, In e l /\ PilotReputation.corporation_id e = c
                  /\ PilotReputation.corporation_name e = Store.corp_name co)
  /\ NoDup (List.map PilotReputation.corporation_id l).
Proof.
  rewrite reputation_on_postgrest.
  destruct (owned_by st P U) as [|p [|p' ps]]; try discriminate.
  intros [= <-]. split; [|split].
  - intros e He. apply in_map_iff in He as (r & <- & Hr).
    apply filter_In in Hr as [Hr HP]. apply bool_decide_eq_true in HP.
    apply pilot_reputation_spec in Hr as (_ & _ & Hv). cbn. by rewrite <- HP.
  - intros c co Hne Hco.
    set (r := {| Store.pr_pilot_id := P; Store.pr_corporation_id := c;
                 Store.pr_corporation_name := Store.corp_name co;
                 Store.pr_reputation_value := Store.sum_changes (Store.ledger_of st P c) |}).
    exists (aggregate_of r). split; [|done].
    apply in_map, filter_In. split; [|by apply bool_decide_eq_true_2].
    apply pilot_reputation_spec. cbn. eauto.
  - rewrite List.map_map. cbn.
    pose proof (pilot_reputation_NoDup st) as Hnd. unfold view_of.
    induction (Store.pilot_reputation st) as [|r rs IH]; cbn; [constructor|].
    cbn in Hnd. apply NoDup_cons in Hnd as [Hr Hnd].
    destruct (bool_decide_reflect (Store.pr_pilot_id r = P)) as [HP|HP]; [|by apply IH].
    cbn. constructor; [|by apply IH].
    rewrite list_elem_of_In, in_map_iff. intros (r' & Ec & Hr').
    apply filter_In in Hr' as [Hr' HP']. apply bool_decide_eq_true in HP'.
    apply Hr, list_elem_of_In, in_map_iff. exists r'. split; [|done]. congruence.
Qed.
End OnPostgREST.

(** ** Reads only *)

Section ReadOnly.
Context `{Scalars} (write : Client Store.t).
Implicit Types (P : UUID) (U : User.t) (st : Store.t).

Lemma endpoint_reads_only {A} q (k : outcome APIResponse -> outcome A) P U st :
  r_method q = GET ->
  backend (fst (endpoint_run q k (PostgREST.client write) P U st)) = st
  /\ Forall (fun q' => r_method q' = GET)
        (sent (fst (endpoint_run q k (PostgREST.client write) P U st))).
Proof.
  intros Hq. unfold endpoint_run.
  rewrite (client_read write (ownership_request P U)) by reflexivity. cbn [fst snd].
  rewrite (client_read write q) by done.
  destruct (guard_of _) as [[|]|e]; cbn; split; repeat constructor; done.
Qed.

Lemma call_reads_only c st :
  backend (session_after_call (PostgREST.client write) c st) = st
  /\ Forall (fun q => r_method q = GET)
        (sent (session_after_call (PostgREST.client write) c st)).
Proof.
  destruct c as [P U|P U|P U]; cbn [session_after_call].
  - rewrite verify_pilot_ownership_run.
    rewrite (client_read write (ownership_request P U)) by reflexivity. cbn.
    split; repeat constructor.
  - rewrite list_pilot_reputation_run. by apply endpoint_reads_only.
  - rewrite list_pilot_reputation_history_run. by apply endpoint_reads_only.
Qed.

(** C8. Whatever the service does with a write, the guard and the two
    endpoints send it none: every request of a call is a read (a [select],
    method GET), a call leaves the store as it found it, and so does any
    sequence of calls. *)
Theorem calls_leave_the_store_unchanged (cs : list call) st :
  store_after_calls (PostgREST.client write) cs st = st
  /\ Forall (fun c =>
               backend (session_after_call (PostgREST.client write) c st) = st
               /\ Forall (fun q => r_method q = GET)
                     (sent (session_after_call (PostgREST.client write) c st))) cs.
Proof.
  split.
  - unfold store_after_calls. induction cs as [|c cs IH]; cbn; [done|].
    by rewrite (proj1 (call_reads_only c st)).
  - apply Forall_forall. intros c _. apply call_reads_only.
Qed.
End ReadOnly.

(** ** What the service makes of the guard *)

Section GuardOnService.
Context `{HL : ScalarLaws} (write : Client Store.t).
Implicit Types (P : UUID) (U : User.t) (st : Store.t).

(** On the service the guard returns true when the caller owns the pilot
    and raises the refusal of [single()] otherwise; it never returns
    false. *)
Theorem guard_on_the_service P U st :
  (owns st U P ->
   result_of (verify_pilot_ownership P U (PostgREST.client write)) st = Return true)
  /\ (~ owns st U P ->
      result_of (verify_pilot_ownership P U (PostgREST.client write)) st
      = Raise (PostgREST.not_single (length (owned_by st P U))))
  /\ result_of (verify_pilot_ownership P U (PostgREST.client write)) st <> Return false.
Proof.
  rewrite guard_on_postgrest. unfold owns.
  destruct (owned_by st P U) as [|p [|p' ps]]; repeat split; try done.
  - by intros [? ?].
  - intros []. eauto.
  - by intros [? ?].
Qed.

(** For a pilot the caller does not own, both endpoints raise one and the
    same exception after the guard's lookup alone, whether some other user's
    pilot row has that identifier or none has: the refusal of [single()] for
    zero rows. *)
Theorem unowned_pilot_same_refusal P U st :
  owned_by st P U = [] ->
  run (list_pilot_reputation P U (PostgREST.client write)) st
    = ({| backend := st; sent := [ownership_request P U] |},
       Raise (PostgREST.not_single 0))
  /\ run (list_pilot_reputation_history P U (PostgREST.client write)) st
    = ({| backend := st; sent := [ownership_request P U] |},
       Raise (PostgREST.not_single 0)).
Proof.
  intros Hnone.
  rewrite list_pilot_reputation_run, list_pilot_reputation_history_run.
  rewrite !endpoint_on_postgrest by reflexivity. by rewrite Hnone.
Qed.
End GuardOnService.

(** ** The corporation name of a history entry *)

Section CorporationName.
Context `{Scalars}.

Lemma dict_get_app d d' k :
  dict_get (d ++ d') k
  = match dict_get d k with Some v => Some v | None => dict_get d' k end.
Proof.
  induction d as [|[k' v] d IH]; cbn; [done|]. by destruct (String.eqb k' k).
Qed.

Lemma init_corporation_name kwargs c :
  ReputationChangeWithCorp.init kwargs = Return c ->
  exists v, dict_get kwargs "corporation_name" = Some v
            /\ validate_str v = Some (ReputationChangeWithCorp.corporation_name c).
Proof.
  unfold ReputationChangeWithCorp.init, ReputationChangeWithCorp.fields, mbind, outcome_bind.
  destruct (ReputationChange.fields _ kwargs) as [b|e]; [|done].
  unfold required. destruct (dict_get kwargs "corporation_name") as [v|]; [|done].
  destruct (validate_str v) as [n|] eqn:En; [|done]. intros [= <-]. eauto.
Qed.

(** A row whose [corporations] is [None] has no [get]. *)
Lemma history_entry_null_corporations d :
  dict_get d "corporations" = Some VNone -> history_entry (VDict d) = Raise AttributeError.
Proof. unfold history_entry. cbn. by intros ->. Qed.

(** The name the loop passes on: the placeholder when the row has no
    [corporations] key or the embedded object has no [name] key, the
    embedded name otherwise. *)
Theorem history_entry_corporation_name d c :
  history_entry (VDict d) = Return c ->
  exists name,
    validate_str name = Some (ReputationChangeWithCorp.corporation_name c)
    /\ match dict_get d "corporations" with
       | None => name = VStr "Unknown"
       | Some (VDict e) => name = default (VStr "Unknown") (dict_get e "name")
       | Some _ => False
       end.
Proof.
  unfold history_entry. cbn.
  destruct (dict_get d "corporations") as [v|] eqn:Ev; cbn.
  - destruct v; cbn; try done.
    destruct (dict_get (dict_del d "corporations") "corporation_name") eqn:Ek; cbn; [done|].
    intros Hinit. apply init_corporation_name in Hinit as (v & Hv & Hval).
    rewrite dict_get_app, Ek in Hv. cbn in Hv. injection Hv as <-. eauto.
  - destruct (dict_get (dict_del d "corporations") "corporation_name") eqn:Ek; cbn; [done|].
    intros Hinit. apply init_corporation_name in Hinit as (v & Hv & Hval).
    rewrite dict_get_app, Ek in Hv. cbn in Hv. injection Hv as <-. eauto.
Qed.
End CorporationName.

(** ** The schemas *)

Section Schemas.
Context `{Scalars}.

Lemma with_default_absent {A} model (validate : value -> option A) dflt kwargs field :
  dict_get kwargs field = None ->
  with_default model validate dflt kwargs field = Return dflt.
Proof. unfold with_default. by intros ->. Qed.

(** C9. An [ExoticGearWithLogInfo] built without an explicit [is_lost] has
    [is_lost = False], whatever its [lost_log_id] is: the field is a plain
    default and is not computed from [lost_log_id]. *)
Theorem is_lost_defaults_to_False kwargs (g : ExoticGearWithLogInfo.t) :
  dict_get kwargs "is_lost" = None ->
  ExoticGearWithLogInfo.init kwargs = Return g ->
  ExoticGearWithLogInfo.is_lost g = false.
Proof.
  intros Habsent. unfold ExoticGearWithLogInfo.init, ExoticGearWithLogInfo.fields.
  rewrite with_default_absent by done. unfold mbind, outcome_bind.
  destruct (ExoticGear.fields _ kwargs) as [b|e]; [|done].
  by intros [= <-].
Qed.

(** C10. A [GearUpdate] with every field omitted is accepted, and all of
    [name], [description] and [notes] are [None]. *)
Theorem GearUpdate_accepts_no_fields :
  GearUpdate.init []
  = Return {| GearUpdate.name := None; GearUpdate.description := None;
              GearUpdate.notes := None |}.
Proof. reflexivity. Qed.
End Schemas.

(** ** The scenario *)

Module ScenarioFacts.
Import Text Scenario.

Example owner_is_confirmed :
  result_of (verify_pilot_ownership P U db) store = Return true.
Proof. reflexivity. Qed.

Example aggregated_query :
  result_of (list_pilot_reputation P U db) store = Return [aggregate].
Proof. reflexivity. Qed.

Example history_query :
  result_of (list_pilot_reputation_history P U db) store
  = Return [entry_of (change "r3" C 10 3) "C-Name";
            entry_of (change "r2" C (-2) 2) "C-Name";
            entry_of (change "r1" C 5 1) "C-Name"].
Proof. reflexivity. Qed.

Example a_write_changes_the_store :
  fst (db {| r_table := "reputation_changes"; r_method := DELETE; r_columns := "";
             r_filters := []; r_order := []; r_single := false |} store) <> store.
Proof. discriminate. Qed.

(** *** Where the code leaves the spec *)

(** C2 (the code on a pilot without a matching row).  For user V the guard
    finds no row, both for pilot P (owned by U) and for pilot Q (which does
    not exist): [single()] makes [execute()] raise, and the guard raises
    with it instead of returning false. *)
Theorem guard_raises_when_no_row_matches :
  result_of (verify_pilot_ownership P V db) store
    = Raise (APIError "PGRST116" "The result contains 0 rows")
  /\ result_of (verify_pilot_ownership Q V db) store
    = Raise (APIError "PGRST116" "The result contains 0 rows").
Proof. split; reflexivity. Qed.

(** C1 (the code on a pilot the caller does not own).  User V asks for
    pilot P (owned by U) and for pilot Q (which does not exist): the four
    answers are one and the same exception, but it is the [APIError] of the
    guard's lookup, not the 404 [HTTPException] of the endpoint. *)
Theorem unowned_pilot_is_not_a_404 :
  result_of (list_pilot_reputation P V db) store
    = Raise (APIError "PGRST116" "The result contains 0 rows")
  /\ result_of (list_pilot_reputation Q V db) store
    = Raise (APIError "PGRST116" "The result contains 0 rows")
  /\ result_of (list_pilot_reputation_history P V db) store
    = Raise (APIError "PGRST116" "The result contains 0 rows")
  /\ result_of (list_pilot_reputation_history Q V db) store
    = Raise (APIError "PGRST116" "The result contains 0 rows").
Proof. repeat split; reflexivity. Qed.

(** C5 (the code on a ledger row without a corporation).  The service
    sends [corporations: null] for the row whose corporation has no row; the
    loop calls [get] on that [None], and the endpoint raises [AttributeError]
    instead of answering with the placeholder name. *)
Theorem history_fails_without_corporation :
  result_of (list_pilot_reputation_history P U db) store_without_corporation
  = Raise AttributeError.
Proof. reflexivity. Qed.

(** An embedded corporation whose [name] is [null] fails as well: [get]
    finds the key and returns [None], which is no [str]. *)
Example history_entry_null_name :
  history_entry (VDict (change_object (change "r1" C 5 1)
                        ++ [("corporations", VDict [("name", VNone)])]))
  = Raise (ValidationError "ReputationChangeWithCorp").
Proof. reflexivity. Qed.

(** *** The properties at the scenario *)

Lemma history_newest_first_witness :
  newest_first [entry_of (change "r3" C 10 3) "C-Name";
                entry_of (change "r2" C (-2) 2) "C-Name";
                entry_of (change "r1" C 5 1) "C-Name"]
  /\ exists rows,
       rows ≡ₚ ledger_for store P
       /\ Forall2 (fun e r => exists co,
                     Store.find_corporation store (Store.rc_corporation_id r) = Some co
                     /\ e = entry_of r (Store.corp_name co))
            [entry_of (change "r3" C 10 3) "C-Name";
             entry_of (change "r2" C (-2) 2) "C-Name";
             entry_of (change "r1" C 5 1) "C-Name"] rows.
Proof. apply (history_newest_first wipe P U store). reflexivity. Defined.

Lemma reputation_is_the_view_of_the_pilot_witness :
  result_of (list_pilot_reputation P U db) store
  = Return (List.map aggregate_of (view_of store P)).
Proof.
  apply (proj1 (proj2 (reputation_is_the_view_of_the_pilot wipe P U store))).
  eexists. reflexivity.
Defined.

Lemma reputation_value_is_the_sum_witness :
  PilotReputation.pilot_id aggregate = P
  /\ PilotReputation.reputation_value aggregate
     = Store.sum_changes (Store.ledger_of store P (PilotReputation.corporation_id aggregate)).
Proof.
  apply (proj1 (reputation_value_is_the_sum wipe P U store [aggregate] eq_refl) aggregate).
  by left.
Defined.

Lemma is_lost_defaults_to_False_witness :
  exists g,
    ExoticGearWithLogInfo.init lost_gear = Return g
    /\ ExoticGearWithLogInfo.lost_log_id g = Some (uuid "log-9")
    /\ ExoticGearWithLogInfo.is_lost g = false.
Proof.
  eexists. split; [reflexivity|]. split; [reflexivity|].
  apply (is_lost_defaults_to_False lost_gear); reflexivity.
Defined.

Lemma guard_on_the_service_witness :
  result_of (verify_pilot_ownership P U db) store = Return true.
Proof.
  apply (proj1 (guard_on_the_service wipe P U store)). eexists. reflexivity.
Defined.

Lemma unowned_pilot_same_refusal_witness :
  (run (list_pilot_reputation P V db) store
     = ({| backend := store; sent := [ownership_request P V] |},
        Raise (PostgREST.not_single 0))
   /\ run (list_pilot_reputation_history P V db) store
     = ({| backend := store; sent := [ownership_request P V] |},
        Raise (PostgREST.not_single 0)))
  /\ (run (list_pilot_reputation Q V db) store
     = ({| backend := store; sent := [ownership_request Q V] |},
        Raise (PostgREST.not_single 0))
   /\ run (list_pilot_reputation_history Q V db) store
     = ({| backend := store; sent := [ownership_request Q V] |},
        Raise (PostgREST.not_single 0))).
Proof.
  split; apply (unowned_pilot_same_refusal wipe); reflexivity.
Defined.

Lemma history_entry_corporation_name_witness :
  exists name,
    validate_str name = Some "Unknown"
    /\ name = VStr "Unknown".
Proof.
  apply (history_entry_corporation_name
           (change_object (change "r1" C 5 1))
           (entry_of (change "r1" C 5 1) "Unknown")).
  reflexivity.
Defined.
End ScenarioFacts.

(** * Further properties *)

(** ** Exceptions and rows, against any client *)

Section Propagation.
Context `{Scalars} {W : Type}.
Implicit Types (db : Client W) (w : W) (P : UUID) (U : User.t).

Lemma endpoint_run_guard_true {A} q (k : outcome APIResponse -> outcome A) db P U w :
  result_of (verify_pilot_ownership P U db) w = Return true ->
  endpoint_run q k db P U w =
    ({| backend := fst (db q (store_after (verify_pilot_ownership P U db) w));
        sent := [ownership_request P U; q] |},
     k (snd (db q (store_after (verify_pilot_ownership P U db) w)))).
Proof.
  unfold result_of, store_after. rewrite verify_pilot_ownership_run. cbn. intros Hg.
  unfold endpoint_run. by rewrite Hg.
Qed.

Lemma endpoint_run_guard_raise {A} q (k : outcome APIResponse -> outcome A) db P U w e :
  result_of (verify_pilot_ownership P U db) w = Raise e ->
  endpoint_run q k db P U w = (fst (run (verify_pilot_ownership P U db) w), Raise e).
Proof.
  unfold result_of. rewrite verify_pilot_ownership_run. cbn. intros Hg.
  unfold endpoint_run. by rewrite Hg.
Qed.

(** An exception of the guard's lookup is the exception of the endpoint:
    neither endpoint catches it, turns it into a 404 or sends a further
    request. *)
Theorem guard_exception_propagates db w P U e :
  result_of (verify_pilot_ownership P U db) w = Raise e ->
  run (list_pilot_reputation P U db) w
    = (fst (run (verify_pilot_ownership P U db) w), Raise e)
  /\ run (list_pilot_reputation_history P U db) w
    = (fst (run (verify_pilot_ownership P U db) w), Raise e).
Proof.
  intros Hg. rewrite list_pilot_reputation_run, list_pilot_reputation_history_run.
  split; by apply endpoint_run_guard_raise.
Qed.

(** After a guard that returned true, an exception of the endpoint's own
    query is the exception of the endpoint, and both requests were sent. *)
Theorem query_exception_propagates db w P U e :
  result_of (verify_pilot_ownership P U db) w = Return true ->
  (snd (db (reputation_request P) (store_after (verify_pilot_ownership P U db) w)) = Raise e ->
   result_of (list_pilot_reputation P U db) w = Raise e
   /\ requests_of (list_pilot_reputation P U db) w
      = [ownership_request P U; reputation_request P])
  /\ (snd (db (history_request P) (store_after (verify_pilot_ownership P U db) w)) = Raise e ->
      result_of (list_pilot_reputation_history P U db) w = Raise e
      /\ requests_of (list_pilot_reputation_history P U db) w
         = [ownership_request P U; history_request P]).
Proof.
  intros Hg. unfold result_of, requests_of.
  rewrite list_pilot_reputation_run, list_pilot_reputation_history_run.
  rewrite !endpoint_run_guard_true by done. cbn [fst snd sent].
  split; intros ->; by split.
Qed.

(** [list_pilot_reputation] answers with all rows or with none: after a
    guard that returned true and a query that returned [rows], the result
    is a list exactly when every row is a mapping that validates as a
    [PilotReputation], and the list then has the records of the rows, one
    per row, in the order of the rows. *)
Theorem reputation_all_rows_or_none db w P U rows l :
  result_of (verify_pilot_ownership P U db) w = Return true ->
  snd (db (reputation_request P) (store_after (verify_pilot_ownership P U db) w))
    = Return {| data := VList rows |} ->
  result_of (list_pilot_reputation P U db) w = Return l <->
  Forall2 (fun r e => exists kwargs, r = VDict kwargs
                                     /\ PilotReputation.init kwargs = Return e) rows l.
Proof.
  intros Hg Hq. unfold result_of. rewrite list_pilot_reputation_run.
  rewrite endpoint_run_guard_true by done. cbn [snd]. rewrite Hq.
  unfold reputation_of. cbn. rewrite mapM_outcome_spec.
  split; intros HF; (eapply Forall2_impl; [exact HF|]); intros r e.
  - destruct r; cbn; try done. eauto.
  - by intros (kwargs & -> & ?).
Qed.

(** [list_pilot_reputation_history] answers with all rows or with none:
    after a guard that returned true and a query that returned [rows], the
    result is a list exactly when the body of the loop succeeds on every
    row, and the list then has the entries of the rows, one per row, in the
    order of the rows. *)
Theorem history_all_rows_or_none db w P U rows l :
  result_of (verify_pilot_ownership P U db) w = Return true ->
  snd (db (history_request P) (store_after (verify_pilot_ownership P U db) w))
    = Return {| data := VList rows |} ->
  result_of (list_pilot_reputation_history P U db) w = Return l <->
  Forall2 (fun r e => history_entry r = Return e) rows l.
Proof.
  intros Hg Hq. unfold result_of. rewrite list_pilot_reputation_history_run.
  rewrite endpoint_run_guard_true by done. cbn [snd]. rewrite Hq.
  unfold history_of. cbn. rewrite for_append_spec. split.
  - by intros (ys & -> & ?).
  - intros ?. by exists l.
Qed.
End Propagation.

(** ** The body of the history loop *)

Section HistoryRows.
Context `{Scalars}.

Lemma dict_get_del_ne d k k' :
  k <> k' -> dict_get (dict_del d k) k' = dict_get d k'.
Proof.
  intros Hne. unfold dict_del. induction d as [|[k0 v] d IH]; cbn; [done|].
  destruct (String.eqb_spec k0 k) as [->|Hk]; cbn.
  - destruct (String.eqb_spec k k'); [done|]. apply IH.
  - destruct (String.eqb k0 k'); [done|apply IH].
Qed.

(** A row that already has a [corporation_name] key cannot be unpacked next
    to the explicit [corporation_name] keyword: whenever its [corporations]
    is absent or an object, the body of the loop raises [TypeError]. *)
Theorem history_entry_duplicate_keyword d v :
  dict_get d "corporation_name" = Some v ->
  (dict_get d "corporations" = None
   \/ exists e, dict_get d "corporations" = Some (VDict e)) ->
  history_entry (VDict d) = Raise TypeError.
Proof.
  intros Hname Hcorp. unfold history_entry. cbn.
  assert (dict_get (dict_del d "corporations") "corporation_name" = Some v) as Hdel.
  { by rewrite dict_get_del_ne. }
  destruct Hcorp as [->|[e ->]]; cbn; by rewrite Hdel.
Qed.
End HistoryRows.

(** ** The history, against the service *)

Section HistoryOnService.
Context `{HL : ScalarLaws} (write : Client Store.t).
Implicit Types (P : UUID) (U : User.t) (st : Store.t).

(** A loop whose body fails in one way only, if at all. *)
Lemma for_append_one_failure {A B} (body : A -> outcome B) (e0 : exn) xs acc :
  Forall (fun x => (exists y, body x = Return y) \/ body x = Raise e0) xs ->
  (Forall (fun x => exists y, body x = Return y) xs ->
   exists l, for_append xs body acc = Return l /\ length l = (length acc + length xs)%nat)
  /\ (Exists (fun x => body x = Raise e0) xs -> for_append xs body acc = Raise e0).
Proof.
  intros Hall. revert acc. induction Hall as [|x xs Hx Hall IH]; intros acc; cbn.
  - split; [|by inversion 1]. intros _. exists acc. split; [done|lia].
  - unfold mbind, outcome_bind. destruct Hx as [[y Hy]|Hx].
    + rewrite Hy. split.
      * intros Hok. apply Forall_cons in Hok as [_ Hok].
        destruct (proj1 (IH (acc ++ [y])) Hok) as (l & -> & Hlen).
        exists l. split; [done|]. rewrite length_app in Hlen. cbn in Hlen. lia.
      * intros Hex. apply Exists_cons in Hex as [Hx|Hex]; [congruence|].
        by apply IH.
    + rewrite Hx. split; [|done].
      intros Hok. apply Forall_cons in Hok as [[y Hy] _]. congruence.
Qed.

(** On the service, the history of an owned pilot is returned, with one
    entry per ledger row of the pilot, exactly when every such row has its
    corporation; when one has none, the call raises [AttributeError]; and
    for a pilot the caller does not own it raises the refusal of
    [single()]. *)
Theorem history_needs_every_corporation P U st :
  (owns st U P ->
   Forall (fun r => is_Some (Store.find_corporation st (Store.rc_corporation_id r)))
     (ledger_for st P) ->
   exists l,
     result_of (list_pilot_reputation_history P U (PostgREST.client write)) st = Return l
     /\ length l = length (ledger_for st P))
  /\ (owns st U P ->
      Exists (fun r => Store.find_corporation st (Store.rc_corporation_id r) = None)
        (ledger_for st P) ->
      result_of (list_pilot_reputation_history P U (PostgREST.client write)) st
      = Raise AttributeError)
  /\ (~ owns st U P ->
      result_of (list_pilot_reputation_history P U (PostgREST.client write)) st
      = Raise (PostgREST.not_single (length (owned_by st P U)))).
Proof.
  destruct (history_on_postgrest write P U st) as (rows & Hperm & _ & ->).
  assert (Forall (fun x => (exists y, history_entry x = Return y)
                           \/ history_entry x = Raise AttributeError)
            (List.map (fun r => VDict (history_object st r)) rows)) as Hall.
  { apply Forall_forall. intros x Hx. apply list_elem_of_In, in_map_iff in Hx as (r & <- & _).
    rewrite history_entry_object. destruct (Store.find_corporation _ _); eauto. }
  apply (for_append_one_failure _ _ _ []) in Hall as [Hok Hfail].
  unfold owns. split; [|split].
  - intros [p ->] Hcorp. rewrite <- Hperm in Hcorp.
    destruct Hok as (l & -> & Hlen).
    + apply Forall_forall. intros x Hx.
      apply list_elem_of_In, in_map_iff in Hx as (r & <- & Hr).
      rewrite history_entry_object.
      rewrite Forall_forall in Hcorp. destruct (Hcorp r) as [co ->]; [by apply list_elem_of_In|].
      eauto.
    + exists l. split; [done|]. rewrite Hlen, length_map. cbn. by rewrite Hperm.
  - intros [p ->] Hmiss. rewrite <- Hperm in Hmiss. apply Hfail.
    apply Exists_exists in Hmiss as (r & Hr & Hnone). apply Exists_exists.
    exists (VDict (history_object st r)). split.
    + apply list_elem_of_In.
      apply (in_map (fun r => VDict (history_object st r))). by apply list_elem_of_In.
    + by rewrite history_entry_object, Hnone.
  - intros Hnot. destruct (owned_by st P U) as [|p [|p' ps]]; try done.
    destruct Hnot. eauto.
Qed.
End HistoryOnService.

(** ** The schemas and their base classes *)

Section SchemaNesting.
Context `{Scalars}.

Lemma required_model {A} m m' (validate : value -> option A) kwargs field a :
  required m validate kwargs field = Return a ->
  required m' validate kwargs field = Return a.
Proof.
  unfold required. destruct (dict_get kwargs field) as [v|]; [|done].
  by destruct (validate v).
Qed.

Lemma with_default_model {A} m m' (validate : value -> option A) dflt kwargs field a :
  with_default m validate dflt kwargs field = Return a ->
  with_default m' validate dflt kwargs field = Return a.
Proof.
  unfold with_default. destruct (dict_get kwargs field) as [v|]; [|done].
  by destruct (validate v).
Qed.

Lemma ReputationChangeCreate_fields_model m m' kwargs x :
  ReputationChangeCreate.fields m kwargs = Return x ->
  ReputationChangeCreate.fields m' kwargs = Return x.
Proof.
  unfold ReputationChangeCreate.fields.
  unfold mbind, outcome_bind, mret, outcome_ret.
  destruct (required m _ kwargs "corporation_id") eqn:E1; [|done].
  destruct (required m _ kwargs "change_value") eqn:E2; [|done].
  destruct (with_default m _ _ kwargs "notes") eqn:E3; [|done].
  intros [= <-].
  by rewrite (required_model _ m' _ _ _ _ E1), (required_model _ m' _ _ _ _ E2),
    (with_default_model _ m' _ _ _ _ _ E3).
Qed.

Lemma ReputationChange_fields_model m m' kwargs x :
  ReputationChange.fields m kwargs = Return x ->
  ReputationChange.fields m' kwargs = Return x.
Proof.
  unfold ReputationChange.fields.
  unfold mbind, outcome_bind, mret, outcome_ret.
  destruct (ReputationChangeCreate.fields m kwargs) eqn:E0; [|done].
  destruct (required m _ kwargs "id") eqn:E1; [|done].
  destruct (required m _ kwargs "log_entry_id") eqn:E2; [|done].
  destruct (required m _ kwargs "pilot_id") eqn:E3; [|done].
  destruct (required m _ kwargs "created_at") eqn:E4; [|done].
  intros [= <-].
  by rewrite (ReputationChangeCreate_fields_model _ m' _ _ E0),
    (required_model _ m' _ _ _ _ E1), (required_model _ m' _ _ _ _ E2),
    (required_model _ m' _ _ _ _ E3), (required_model _ m' _ _ _ _ E4).
Qed.

(** What validates as a [ReputationChangeWithCorp] validates as a
    [ReputationChange] and as a [ReputationChangeCreate], to the same
    fields: each class accepts what its subclasses accept. *)
Theorem reputation_schemas_nest kwargs c :
  ReputationChangeWithCorp.init kwargs = Return c ->
  ReputationChange.init kwargs = Return (ReputationChangeWithCorp.base c)
  /\ ReputationChangeCreate.init kwargs
     = Return (ReputationChange.base (ReputationChangeWithCorp.base c)).
Proof.
  unfold ReputationChangeWithCorp.init, ReputationChangeWithCorp.fields.
  unfold mbind, outcome_bind, mret, outcome_ret.
  destruct (ReputationChange.fields _ kwargs) as [b|] eqn:Eb; [|done].
  destruct (required _ _ kwargs "corporation_name"); [|done].
  intros [= <-]. cbn. split.
  - by apply (ReputationChange_fields_model "ReputationChangeWithCorp").
  - apply (ReputationChange_fields_model _ "ReputationChange") in Eb.
    unfold ReputationChange.fields, mbind, outcome_bind, mret, outcome_ret in Eb.
    destruct (ReputationChangeCreate.fields _ kwargs) as [b0|] eqn:E0; [|done].
    repeat match type of Eb with
           | context [required ?m ?v ?kw ?f] => destruct (required m v kw f); [|done]
           end.
    injection Eb as <-. cbn.
    by apply (ReputationChangeCreate_fields_model "ReputationChange").
Qed.

Lemma GearBase_fields_model m m' kwargs x :
  GearBase.fields m kwargs = Return x -> GearBase.fields m' kwargs = Return x.
Proof.
  unfold GearBase.fields.
  unfold mbind, outcome_bind, mret, outcome_ret.
  destruct (required m _ kwargs "name") eqn:E1; [|done].
  destruct (with_default m _ _ kwargs "description") eqn:E2; [|done].
  destruct (with_default m _ _ kwargs "notes") eqn:E3; [|done].
  intros [= <-].
  by rewrite (required_model _ m' _ _ _ _ E1), (with_default_model _ m' _ _ _ _ _ E2),
    (with_default_model _ m' _ _ _ _ _ E3).
Qed.

Lemma ExoticGear_fields_base m kwargs x :
  ExoticGear.fields m kwargs = Return x ->
  GearBase.fields m kwargs = Return (ExoticGear.base x).
Proof.
  unfold ExoticGear.fields. unfold mbind, outcome_bind, mret, outcome_ret.
  destruct (GearBase.fields m kwargs) as [b|]; [|done].
  repeat match goal with
         | |- context [required ?m ?v ?kw ?f] => destruct (required m v kw f); [|done]
         | |- context [with_default ?m ?v ?d ?kw ?f] =>
             destruct (with_default m v d kw f); [|done]
         end.
  by intros [= <-].
Qed.

Lemma ExoticGear_fields_model m m' kwargs x :
  ExoticGear.fields m kwargs = Return x -> ExoticGear.fields m' kwargs = Return x.
Proof.
  unfold ExoticGear.fields.
  unfold mbind, outcome_bind, mret, outcome_ret.
  destruct (GearBase.fields m kwargs) eqn:E0; [|done].
  destruct (required m _ kwargs "id") eqn:E1; [|done].
  destruct (required m _ kwargs "pilot_id") eqn:E2; [|done].
  destruct (required m _ kwargs "acquired_date") eqn:E3; [|done].
  destruct (with_default m _ _ kwargs "acquired_log_id") eqn:E4; [|done].
  destruct (with_default m _ _ kwargs "lost_log_id") eqn:E5; [|done].
  destruct (required m _ kwargs "created_at") eqn:E6; [|done].
  destruct (required m _ kwargs "updated_at") eqn:E7; [|done].
  intros [= <-].
  by rewrite (GearBase_fields_model _ m' _ _ E0),
    (required_model _ m' _ _ _ _ E1), (required_model _ m' _ _ _ _ E2),
    (required_model _ m' _ _ _ _ E3), (with_default_model _ m' _ _ _ _ _ E4),
    (with_default_model _ m' _ _ _ _ _ E5), (required_model _ m' _ _ _ _ E6),
    (required_model _ m' _ _ _ _ E7).
Qed.

(** What validates as an [ExoticGearWithLogInfo] validates as an
    [ExoticGear], as a [GearBase] and as a [GearCreate], to the same
    fields. *)
Theorem gear_schemas_nest kwargs g :
  ExoticGearWithLogInfo.init kwargs = Return g ->
  ExoticGear.init kwargs = Return (ExoticGearWithLogInfo.base g)
  /\ GearBase.init kwargs = Return (ExoticGear.base (ExoticGearWithLogInfo.base g))
  /\ GearCreate.init kwargs = Return (ExoticGear.base (ExoticGearWithLogInfo.base g)).
Proof.
  unfold ExoticGearWithLogInfo.init, ExoticGearWithLogInfo.fields.
  unfold mbind, outcome_bind, mret, outcome_ret.
  destruct (ExoticGear.fields _ kwargs) as [b|] eqn:Eb; [|done].
  destruct (with_default _ _ _ kwargs "is_lost"); [|done].
  intros [= <-]. cbn.
  apply ExoticGear_fields_base in Eb as Eg.
  split; [|split].
  - by apply (ExoticGear_fields_model "ExoticGearWithLogInfo").
  - by apply (GearBase_fields_model "ExoticGearWithLogInfo").
  - by apply (GearBase_fields_model "ExoticGearWithLogInfo").
Qed.

(** Keyword arguments that make a [GearCreate] also make a [GearUpdate],
    with the same name, description and notes; a [GearCreate] without a
    name is refused, which a [GearUpdate] is not. *)
Theorem GearCreate_is_a_GearUpdate kwargs :
  validate_str VNone = None ->
  (forall g, GearCreate.init kwargs = Return g ->
     GearUpdate.init kwargs
     = Return {| GearUpdate.name := Some (GearBase.name g);
                 GearUpdate.description := GearBase.description g;
                 GearUpdate.notes := GearBase.notes g |})
  /\ (dict_get kwargs "name" = None ->
      GearCreate.init kwargs = Raise (ValidationError "GearCreate")).
Proof.
  intros Hnone. unfold GearCreate.init, GearBase.fields, GearUpdate.init.
  unfold mbind, outcome_bind, mret, outcome_ret. split.
  - intros g. unfold required at 1. unfold with_default at 3.
    destruct (dict_get kwargs "name") as [v|]; [|done].
    destruct (validate_str v) as [n|] eqn:En; [|done].
    assert (or_None validate_str v = Some (Some n)) as ->.
    { destruct v; cbn; rewrite ?En; try done. congruence. }
    destruct (with_default "GearCreate" _ _ kwargs "description") as [d|] eqn:Ed; [|done].
    destruct (with_default "GearCreate" _ _ kwargs "notes") as [o|] eqn:Eo; [|done].
    intros [= <-]. cbn.
    by rewrite (with_default_model _ "GearUpdate" _ _ _ _ _ Ed),
      (with_default_model _ "GearUpdate" _ _ _ _ _ Eo).
  - unfold required. by intros ->.
Qed.
End SchemaNesting.

(** ** The two endpoints together *)

Section AggregateAndHistory.
Context `{HL : ScalarLaws} (write : Client Store.t).
Implicit Types (P : UUID) (U : User.t) (st : Store.t).

Lemma history_entries_on_postgrest P U st l :
  result_of (list_pilot_reputation_history P U (PostgREST.client write)) st = Return l ->
  exists rows,
    rows ≡ₚ ledger_for st P
    /\ Forall2 (fun r e => exists co,
                  Store.find_corporation st (Store.rc_corporation_id r) = Some co
                  /\ e = entry_of r (Store.corp_name co)) rows l.
Proof.
  destruct (history_on_postgrest write P U st) as (rows & Hperm & _ & ->).
  destruct (owned_by st P U) as [|p [|p' ps]]; try discriminate.
  rewrite for_append_spec. intros (ys & -> & Hys). cbn.
  apply Forall2_fmap_l in Hys. exists rows. split; [done|].
  eapply Forall2_impl; [exact Hys|]. intros r e He.
  change (history_entry (VDict (history_object st r)) = Return e) in He.
  rewrite history_entry_object in He.
  destruct (Store.find_corporation st (Store.rc_corporation_id r)) as [co|]; [|done].
  injection He as <-. eauto.
Qed.

Lemma sum_changes_Permutation (f : Store.reputation_change -> bool) rows rows' :
  rows ≡ₚ rows' ->
  Store.sum_changes (List.filter f rows) = Store.sum_changes (List.filter f rows').
Proof.
  unfold Store.sum_changes.
  induction 1 as [|x l l' _ IH|x y l|l l' l'' _ IH1 _ IH2]; cbn; [done| | |congruence].
  - destruct (f x); cbn; by rewrite IH.
  - destruct (f x), (f y); cbn; lia.
Qed.

Lemma ledger_of_ledger_for st P c :
  List.filter (fun r => bool_decide (Store.rc_corporation_id r = c)) (ledger_for st P)
  = Store.ledger_of st P c.
Proof.
  unfold ledger_for, Store.ledger_of.
  induction (Store.reputation_changes st) as [|r rs IH]; cbn; [done|].
  destruct (bool_decide_reflect (Store.rc_pilot_id r = P)) as [HP|HP]; cbn.
  - destruct (bool_decide_reflect (Store.rc_corporation_id r = c)) as [Hc|Hc].
    + rewrite bool_decide_eq_true_2 by done. by rewrite IH.
    + rewrite bool_decide_eq_false_2 by tauto. apply IH.
  - rewrite bool_decide_eq_false_2 by tauto. apply IH.
Qed.

(** On the service the two endpoints agree: when both calls succeed for a
    pilot, the [reputation_value] of every aggregate is the sum of the
    [change_value] of the history entries that have its corporation. *)
Theorem aggregate_is_the_sum_of_the_history P U st agg hist :
  result_of (list_pilot_reputation P U (PostgREST.client write)) st = Return agg ->
  result_of (list_pilot_reputation_history P U (PostgREST.client write)) st = Return hist ->
  Forall (fun e => PilotReputation.reputation_value e
                   = history_total (PilotReputation.corporation_id e) hist) agg.
Proof.
  rewrite reputation_on_postgrest. intros Hagg Hhist.
  destruct (owned_by st P U) as [|p [|p' ps]]; try discriminate.
  injection Hagg as <-.
  apply history_entries_on_postgrest in Hhist as (rows & Hperm & Hent).
  apply Forall_forall. intros e He.
  apply list_elem_of_In, in_map_iff in He as (r & <- & Hr).
  apply filter_In in Hr as [Hr HP]. apply bool_decide_eq_true in HP.
  apply pilot_reputation_spec in Hr as (_ & _ & Hv). cbn. rewrite Hv, HP.
  set (c := Store.pr_corporation_id r).
  rewrite <- ledger_of_ledger_for.
  rewrite <- (sum_changes_Permutation _ _ _ Hperm).
  unfold history_total, Store.sum_changes. f_equal.
  clear -Hent. induction Hent as [|x e rows hist (co & _ & ->) _ IH]; cbn; [done|].
  change (ReputationChangeWithCorp.corporation_id (entry_of x (Store.corp_name co)))
    with (Store.rc_corporation_id x).
  destruct (bool_decide (Store.rc_corporation_id x = c)); cbn; by rewrite IH.
Qed.
End AggregateAndHistory.

(** ** The further properties at single runs *)

Module FurtherFacts.
Import Text Scenario Doubles.

Lemma guard_exception_propagates_witness :
  run (list_pilot_reputation P U (failing outage)) tt
    = (fst (run (verify_pilot_ownership P U (failing outage)) tt), Raise outage)
  /\ run (list_pilot_reputation_history P U (failing outage)) tt
    = (fst (run (verify_pilot_ownership P U (failing outage)) tt), Raise outage).
Proof. apply (guard_exception_propagates (failing outage) tt P U outage). reflexivity. Defined.

Lemma query_exception_propagates_witness :
  result_of (list_pilot_reputation P U (owner_with (Raise outage))) tt = Raise outage
  /\ requests_of (list_pilot_reputation P U (owner_with (Raise outage))) tt
     = [ownership_request P U; reputation_request P].
Proof.
  apply (proj1 (query_exception_propagates (owner_with (Raise outage)) tt P U outage eq_refl)).
  reflexivity.
Defined.

Lemma reputation_all_rows_or_none_witness :
  result_of (list_pilot_reputation P U (owner_with (Return {| data := VList [view_row] |}))) tt
  = Return [aggregate].
Proof.
  apply (proj2 (reputation_all_rows_or_none
                  (owner_with (Return {| data := VList [view_row] |})) tt P U
                  [view_row] [aggregate] eq_refl eq_refl)).
  constructor; [|constructor]. eexists. split; reflexivity.
Defined.

Lemma history_all_rows_or_none_witness :
  result_of (list_pilot_reputation_history P U
               (owner_with (Return {| data := VList [history_row] |}))) tt
  = Return [entry_of (change "r1" C 5 1) "C-Name"].
Proof.
  apply (proj2 (history_all_rows_or_none
                  (owner_with (Return {| data := VList [history_row] |})) tt P U
                  [history_row] [entry_of (change "r1" C 5 1) "C-Name"] eq_refl eq_refl)).
  constructor; [reflexivity|constructor].
Defined.

Lemma history_entry_duplicate_keyword_witness :
  history_entry (VDict history_row_with_name_column) = Raise TypeError.
Proof.
  apply (history_entry_duplicate_keyword history_row_with_name_column (VStr "C-Name"));
    [reflexivity|]. right. eexists. reflexivity.
Defined.

Lemma history_needs_every_corporation_witness :
  exists l,
    result_of (list_pilot_reputation_history P U db) store = Return l
    /\ length l = length (ledger_for store P).
Proof.
  apply (proj1 (history_needs_every_corporation wipe P U store)).
  - eexists. reflexivity.
  - repeat (constructor; [eexists; reflexivity|]). constructor.
Defined.

Lemma reputation_schemas_nest_witness :
  ReputationChange.init (change_object (change "r1" C 5 1)
                         ++ [("corporation_name", VStr "C-Name")])
    = Return (ReputationChangeWithCorp.base (entry_of (change "r1" C 5 1) "C-Name"))
  /\ ReputationChangeCreate.init (change_object (change "r1" C 5 1)
                                  ++ [("corporation_name", VStr "C-Name")])
    = Return (ReputationChange.base
                (ReputationChangeWithCorp.base (entry_of (change "r1" C 5 1) "C-Name"))).
Proof. apply reputation_schemas_nest. reflexivity. Defined.

Lemma gear_schemas_nest_witness :
  exists g,
    ExoticGearWithLogInfo.init lost_gear = Return g
    /\ ExoticGear.init lost_gear = Return (ExoticGearWithLogInfo.base g)
    /\ GearBase.init lost_gear = Return (ExoticGear.base (ExoticGearWithLogInfo.base g))
    /\ GearCreate.init lost_gear = Return (ExoticGear.base (ExoticGearWithLogInfo.base g)).
Proof.
  eexists. split; [reflexivity|]. apply (gear_schemas_nest lost_gear). reflexivity.
Defined.

Lemma GearCreate_is_a_GearUpdate_witness :
  GearUpdate.init new_gear
  = Return {| GearUpdate.name := Some "Relic"; GearUpdate.description := None;
              GearUpdate.notes := None |}.
Proof.
  apply (proj1 (GearCreate_is_a_GearUpdate (H := scalars) new_gear eq_refl)
           {| GearBase.name := "Relic"; GearBase.description := None;
              GearBase.notes := None |}).
  reflexivity.
Defined.

Lemma aggregate_is_the_sum_of_the_history_witness :
  Forall (fun e => PilotReputation.reputation_value e
                   = history_total (PilotReputation.corporation_id e)
                       [entry_of (change "r3" C 10 3) "C-Name";
                        entry_of (change "r2" C (-2) 2) "C-Name";
                        entry_of (change "r1" C 5 1) "C-Name"])
    [aggregate].
Proof.
  apply (aggregate_is_the_sum_of_the_history wipe P U store); reflexivity.
Defined.
End FurtherFacts.
